(** * email.js: SMTP transport resolution and mail dispatch

    A shallow embedding of [src/server/utils/email.ts] (the transport
    resolver [createTransporter], the dispatcher [sendEmail] and the probe
    [verifyEmailConfig]) and of the route handler of [src/server/index.ts],
    followed by the properties of the specification proved about them.

    Conventions of the embedding:
    - a JavaScript string is a [string]; it is read as a sequence of code
      units below 256, which is all the source inspects (the character '@',
      white space and decimal digits);
    - a value of type [string | undefined] is an [option string], [None]
      being [undefined]; object properties marked [?] are options as well;
    - [process.env] is a finite map from names to strings;
    - a function that may throw returns a [completion];
    - the nodemailer transport is an interface whose two operations answer
      with an outcome; every call to it is recorded in a log of network
      events, so that "nothing was sent" is a statement about the log. *)

From Stdlib Require Import ZArith Ascii String List Bool Lia.
From stdpp Require Import base option strings gmap pretty.

Local Open Scope string_scope.
Local Open Scope Z_scope.

(** ** The JavaScript primitives the source relies on *)

Module JS.

(** A [number]. The source only compares numbers with the integer
    literals 465 and 587 and copies them, so the numbers kept are the
    ones [parseInt] can return: [NaN], the two infinities, negative zero
    and the integers ([Num 0] is positive zero). *)
Inductive number : Type :=
| NaN
| Infinity (negative : bool)
| NegZero
| Num (z : Z).

(** [a === b] on numbers: [NaN] is equal to nothing, and the two zeros
    are equal. *)
Definition strict_eq (a b : number) : bool :=
  match a, b with
  | Num x, Num y => x =? y
  | NegZero, NegZero => true
  | NegZero, Num y => y =? 0
  | Num x, NegZero => x =? 0
  | Infinity s, Infinity s' => Bool.eqb s s'
  | _, _ => false
  end.

(** What a [throw] carries: an [Error] object with its [message], or any
    other value. *)
Inductive thrown : Type :=
| Error (message : string)
| NonError.

Inductive completion (A : Type) : Type :=
| Normal (a : A)
| Throw (e : thrown).
Arguments Normal {A} a.
Arguments Throw {A} e.

(** [ToBoolean] on [string | undefined]: [undefined] and the empty string
    are falsy. *)
Definition truthy (v : option string) : bool :=
  match v with
  | Some (String _ _) => true
  | _ => false
  end.

(** The falsy values of [string | undefined], named. *)
Definition absent_or_empty (v : option string) : Prop :=
  v = None \/ v = Some EmptyString.

(** [a || b] where [b] may be [undefined] too. *)
Definition or_opt (a b : option string) : option string :=
  if truthy a then a else b.

(** [a || 'literal']. *)
Definition or_str (a : option string) (b : string) : string :=
  match a with
  | Some (String c s) => String c s
  | _ => b
  end.

(** [a ?? b] on [boolean | undefined]. *)
Definition nullish (a : option bool) (b : bool) : bool :=
  match a with
  | Some v => v
  | None => b
  end.

(** Reading a [string | undefined] where a guard has already excluded
    [undefined]. *)
Definition the (v : option string) : string :=
  match v with
  | Some s => s
  | None => EmptyString
  end.

(** [`${v}`]: a template literal prints [undefined] by name. *)
Definition tpl (v : option string) : string :=
  match v with
  | Some s => s
  | None => "undefined"
  end.

(** [s.includes(sub)]. *)
Fixpoint includes (s sub : string) : bool :=
  String.prefix sub s ||
  match s with
  | String _ s' => includes s' sub
  | EmptyString => false
  end.

(** [l.join(sep)] on an array of strings. *)
Fixpoint join (sep : string) (l : list string) : string :=
  match l with
  | [] => EmptyString
  | [x] => x
  | x :: (_ :: _) as rest => x +:+ sep +:+ join sep rest
  end.

(** White space and line terminators that [parseInt] skips, among the
    code units below 256: TAB, LF, VT, FF, CR, SP and the no-break space
    U+00A0. *)
Definition is_white_space (c : ascii) : bool :=
  let n := Z.of_N (N_of_ascii c) in
  ((9 <=? n) && (n <=? 13)) || (n =? 32) || (n =? 160).

Fixpoint trim_start (s : string) : string :=
  match s with
  | String c s' => if is_white_space c then trim_start s' else s
  | EmptyString => EmptyString
  end.

Definition digit_value (c : ascii) : option Z :=
  let n := Z.of_N (N_of_ascii c) in
  if (48 <=? n) && (n <=? 57) then Some (n - 48) else None.

(** The value of the longest prefix of decimal digits; [acc] is [None]
    until a first digit has been read. *)
Fixpoint parse_digits (s : string) (acc : option Z) : option Z :=
  match s with
  | String c s' =>
      match digit_value c with
      | Some d => parse_digits s' (Some (10 * default 0 acc + d))
      | None => acc
      end
  | EmptyString => acc
  end.

(** The Number value of the integer [m >= 0] with the given sign: the
    nearest double, ties to the even significand. Up to 53 bits the
    integer is kept; beyond, the low [e] bits are rounded away; from
    2^1024 on the value is an infinity. A zero keeps its sign. *)
Definition round_to_double (negative : bool) (m : Z) : number :=
  if m =? 0 then (if negative then NegZero else Num 0)
  else
    let e := Z.log2 m + 1 - 53 in
    let v :=
      if e <=? 0 then m
      else
        let q := Z.shiftr m e in
        let r := m - Z.shiftl q e in
        let half := Z.shiftl 1 (e - 1) in
        let q' :=
          if (half <? r) || ((r =? half) && Z.odd q) then q + 1 else q in
        Z.shiftl q' e in
    if 2 ^ 1024 <=? v then Infinity negative
    else Num (if negative then - v else v).

(** [parseInt(s, 10)]: skip white space, read a sign, then the longest
    run of decimal digits; [NaN] when there is no digit, and otherwise
    the Number value of the signed integer read. *)
Definition parseInt (s : string) : number :=
  let t := trim_start s in
  let '(negative, body) :=
    match t with
    | String "-" r => (true, r)
    | String "+" r => (false, r)
    | _ => (false, t)
    end in
  match parse_digits body None with
  | Some m => round_to_double negative m
  | None => NaN
  end.

(** The double quote character, as a one-character string. *)
Definition dquote : string := String (ascii_of_nat 34) EmptyString.

End JS.

(** ** [src/server/utils/email.ts] *)

Module Email.
Import JS.

Record Auth : Type := {
  user : string;
  pass : string;
}.

Record Tls : Type := {
  rejectUnauthorized : option bool;
}.

(** [interface EmailConfig]: the transport profile handed to nodemailer. *)
Record EmailConfig : Type := {
  host : option string;
  port : option number;
  secure : option bool;
  requireTLS : option bool;
  auth : option Auth;
  service : option string;
  tls : option Tls;
  logger : option bool;
  debug : option bool;
  connectionTimeout : option Z;
  greetingTimeout : option Z;
  socketTimeout : option Z;
}.

(** [interface IntegrationEmailConfig]. The interface declares the three
    SMTP strings and [from_email] as plain strings, but the object is
    built from a request body, and the source itself tests the SMTP
    strings for absence: they are [string | undefined] here. *)
Record IntegrationEmailConfig : Type := {
  smtp_host : option string;
  smtp_port : number;
  smtp_user : option string;
  smtp_password : option string;
  smtp_secure : option bool;
  from_email : option string;
  from_name : option string;
}.

Definition missing_fields_message : string :=
  "Invalid integration config: missing required SMTP fields".

Definition invalid_host_message (h : string) : string :=
  "Invalid SMTP Host: " +:+ dquote +:+ h +:+ dquote +:+
  " is an email address. Use server address like " +:+
  dquote +:+ "smtp.gmail.com" +:+ dquote.

Definition missing_env_message : string :=
  "Email configuration is missing. Please set EMAIL_USER and EMAIL_PASSWORD in .env".

(** [secure] and [requireTLS] of lines 52-64. *)
Definition security_of (port : number) (smtp_secure : option bool)
  : bool * option bool :=
  if strict_eq port (Num 465) then (true, None)
  else if strict_eq port (Num 587) then (false, Some true)
  else
    let secure := nullish smtp_secure false in
    (secure, if secure then None else Some true).

(** The object literal of lines 94-104, before a service or a host is
    assigned to it. *)
Definition env_base_config (emailUser emailPassword : string) : EmailConfig :=
  {| host := None; port := None; secure := None; requireTLS := None;
     auth := Some {| user := emailUser; pass := emailPassword |};
     service := None; tls := None;
     logger := Some true; debug := Some true;
     connectionTimeout := Some 10000;
     greetingTimeout := Some 5000;
     socketTimeout := Some 10000 |}.

Definition set_service (c : EmailConfig) (s : option string) : EmailConfig :=
  {| host := host c; port := port c; secure := secure c;
     requireTLS := requireTLS c; auth := auth c;
     service := s; tls := tls c;
     logger := logger c; debug := debug c;
     connectionTimeout := connectionTimeout c;
     greetingTimeout := greetingTimeout c;
     socketTimeout := socketTimeout c |}.

Definition set_host_port_secure (c : EmailConfig)
    (h : option string) (p : number) (s : bool) : EmailConfig :=
  {| host := h; port := Some p; secure := Some s;
     requireTLS := requireTLS c; auth := auth c;
     service := service c; tls := tls c;
     logger := logger c; debug := debug c;
     connectionTimeout := connectionTimeout c;
     greetingTimeout := greetingTimeout c;
     socketTimeout := socketTimeout c |}.

(** [createTransporter]. [nodemailer.createTransport] only wraps the
    profile in a transporter object and opens no connection, so the
    transporter is the profile it was made from. *)
Definition createTransporter (env : gmap string string)
    (integrationConfig : option IntegrationEmailConfig)
  : completion EmailConfig :=
  match integrationConfig with
  | Some ic =>
      if negb (truthy (smtp_host ic)) || negb (truthy (smtp_user ic))
         || negb (truthy (smtp_password ic))
      then Throw (Error missing_fields_message)
      else if includes (the (smtp_host ic)) "@"
      then Throw (Error (invalid_host_message (the (smtp_host ic))))
      else
        let port_ := smtp_port ic in
        let '(secure_, requireTLS_) := security_of port_ (smtp_secure ic) in
        Normal
          {| host := smtp_host ic;
             port := Some port_;
             secure := Some secure_;
             requireTLS := requireTLS_;
             auth := Some {| user := the (smtp_user ic);
                             pass := the (smtp_password ic) |};
             service := None; tls := None;
             connectionTimeout := Some 10000;
             greetingTimeout := Some 5000;
             socketTimeout := Some 10000;
             logger := Some true;
             debug := Some true |}
  | None =>
      let emailService := env !! "EMAIL_SERVICE" in
      let emailHost := env !! "EMAIL_HOST" in
      let emailPort := parseInt (or_str (env !! "EMAIL_PORT") "587") in
      let emailUser := env !! "EMAIL_USER" in
      let emailPassword := env !! "EMAIL_PASSWORD" in
      if negb (truthy emailUser) || negb (truthy emailPassword)
      then Throw (Error missing_env_message)
      else
        let config := env_base_config (the emailUser) (the emailPassword) in
        if truthy emailService then
          Normal (set_service config emailService)
        else if truthy emailHost then
          Normal (set_host_port_secure config emailHost emailPort
                    (strict_eq emailPort (Num 465)))
        else
          Normal (set_service config (Some "gmail"))
  end.

(** *** The transport and the log of network events *)

Record Attachment : Type := {
  filename : string;
  path : option string;
  content : option string;
  contentType : option string;
}.

(** A recipient field: one address, or an array of addresses. *)
Inductive addresses : Type :=
| One (a : string)
| Many (l : list string).

(** [interface SendEmailOptions]. [to] and [subject] are required by the
    interface; the route handler fills them from the request body, which
    may leave them out. *)
Record SendEmailOptions : Type := {
  from : option string;
  fromName : option string;
  integrationConfig : option IntegrationEmailConfig;
  to : option addresses;
  subject : option string;
  text : option string;
  html : option string;
  cc : option addresses;
  bcc : option addresses;
  attachments : option (list Attachment);
}.

(** The object [mailOptions] given to [transporter.sendMail]; a property
    whose value is [undefined] is [None]. *)
Record MailOptions : Type := {
  mail_from : string;
  mail_to : option string;
  mail_subject : option string;
  mail_text : option string;
  mail_html : option string;
  mail_cc : option string;
  mail_bcc : option string;
  mail_attachments : option (list Attachment);
}.

(** What reaches the network: a message handed to [sendMail], or a
    handshake started by [verify], each on a given transporter. *)
Inductive NetEvent : Type :=
| SentMail (t : EmailConfig) (m : MailOptions)
| Verified (t : EmailConfig).

(** The nodemailer transporter, as far as the source uses it: both
    operations either succeed ([None]) or reject with a thrown value. *)
Record Nodemailer : Type := {
  sendMail_outcome : EmailConfig -> MailOptions -> option thrown;
  verify_outcome : EmailConfig -> option thrown;
}.

(** A computation that may reach the network and may throw. *)
Definition IO (A : Type) : Type := list NetEvent * completion A.

Definition io_ret {A} (a : A) : IO A := ([], Normal a).

Definition io_throw {A} (e : thrown) : IO A := ([], Throw e).

Definition io_bind {A B} (m : IO A) (k : A -> IO B) : IO B :=
  match m with
  | (log, Normal a) => let '(log', r) := k a in ((log ++ log')%list, r)
  | (log, Throw e) => (log, Throw e)
  end.

(** [try { m } catch (error) { h error }]. *)
Definition io_try {A} (m : IO A) (h : thrown -> IO A) : IO A :=
  match m with
  | (log, Normal a) => (log, Normal a)
  | (log, Throw e) => let '(log', r) := h e in ((log ++ log')%list, r)
  end.

(** A pure function that may throw, run inside [IO]. *)
Definition io_lift {A} (c : completion A) : IO A := ([], c).

Notation "'do' x <- m ; k" := (io_bind m (fun x => k))
  (at level 10, x name, m at level 100, k at level 200,
   format "'[v' 'do'  x  <-  m ; '/' k ']'").

Definition log_of {A} (m : IO A) : list NetEvent := fst m.
Definition result_of {A} (m : IO A) : completion A := snd m.

(** [await transporter.sendMail(mailOptions)]. *)
Definition sendMail (net : Nodemailer) (t : EmailConfig) (m : MailOptions)
  : IO unit :=
  ([SentMail t m],
   match sendMail_outcome net t m with
   | None => Normal tt
   | Some e => Throw e
   end).

(** [await transporter.verify()]. *)
Definition verify (net : Nodemailer) (t : EmailConfig) : IO unit :=
  ([Verified t],
   match verify_outcome net t with
   | None => Normal tt
   | Some e => Throw e
   end).

(** *** The dispatcher *)

(** [Array.isArray(v) ? v.join(', ') : v], the normalisation of [to]. *)
Definition join_addresses (v : option addresses) : option string :=
  match v with
  | Some (Many l) => Some (join ", " l)
  | Some (One a) => Some a
  | None => None
  end.

(** [ToBoolean] on [string | string[] | undefined]: an array is truthy,
    even when it is empty. *)
Definition truthy_addresses (v : option addresses) : bool :=
  match v with
  | Some (Many _) => true
  | Some (One a) => truthy (Some a)
  | None => false
  end.

(** [v ? (Array.isArray(v) ? v.join(', ') : v) : undefined], the
    normalisation of [cc] and [bcc]. *)
Definition optional_addresses (v : option addresses) : option string :=
  if truthy_addresses v then join_addresses v else None.

Definition default_from_email : string := "noreply@anquest.com".
Definition default_from_name : string := "aNquest+".

(** [fromEmail] of lines 149-156. *)
Definition fromEmail_of (env : gmap string string) (options : SendEmailOptions)
  : option string :=
  match integrationConfig options with
  | Some ic => or_opt (from options) (from_email ic)
  | None =>
      Some (or_str (or_opt (or_opt (from options) (env !! "EMAIL_FROM"))
                      (env !! "EMAIL_USER"))
              default_from_email)
  end.

(** [fromName] of lines 149-156. *)
Definition fromName_of (env : gmap string string) (options : SendEmailOptions)
  : string :=
  match integrationConfig options with
  | Some ic =>
      or_str (or_opt (fromName options) (from_name ic)) default_from_name
  | None =>
      or_str (or_opt (fromName options) (env !! "EMAIL_FROM_NAME"))
        default_from_name
  end.

(** The template literal of line 159. *)
Definition from_header (name : string) (email : option string) : string :=
  dquote +:+ name +:+ dquote +:+ " <" +:+ tpl email +:+ ">".

Definition mailOptions_of (env : gmap string string)
    (options : SendEmailOptions) : MailOptions :=
  {| mail_from := from_header (fromName_of env options) (fromEmail_of env options);
     mail_to := join_addresses (to options);
     mail_subject := subject options;
     mail_text := text options;
     mail_html := or_opt (html options) (text options);
     mail_cc := optional_addresses (cc options);
     mail_bcc := optional_addresses (bcc options);
     mail_attachments := attachments options |}.

Definition send_failure_prefix : string := "Failed to send email: ".

(** [error instanceof Error ? error.message : 'Unknown error']. *)
Definition message_of (error : thrown) : string :=
  match error with
  | Error m => m
  | NonError => "Unknown error"
  end.

(** [sendEmail]. *)
Definition sendEmail (net : Nodemailer) (env : gmap string string)
    (options : SendEmailOptions) : IO unit :=
  io_try
    (do transporter <- io_lift (createTransporter env (integrationConfig options));
     sendMail net transporter (mailOptions_of env options))
    (fun error => io_throw (Error (send_failure_prefix +:+ message_of error))).

(** [verifyEmailConfig]. *)
Definition verifyEmailConfig (net : Nodemailer) (env : gmap string string)
  : IO bool :=
  io_try
    (do transporter <- io_lift (createTransporter env None);
     do ok <- verify net transporter;
     io_ret true)
    (fun error => io_ret false).

End Email.

(** ** [src/server/index.ts]: the route [POST /api/send-email] *)

Module Server.
Import JS Email.

(** The fields the handler reads from [req.body]; each may be absent.
    [smtpPort] is whatever JSON value the client sent: its type is left
    open and [Number(...)] is the function [to_number] given with it. *)
Record Body (J : Type) : Type := {
  smtpHost : option string;
  smtpPort : J;
  smtpUser : option string;
  smtpPass : option string;
  body_fromEmail : option string;
  body_fromName : option string;
  body_to : option addresses;
  body_subject : option string;
  message : option string;
}.
Arguments smtpHost {J} _.
Arguments smtpPort {J} _.
Arguments smtpUser {J} _.
Arguments smtpPass {J} _.
Arguments body_fromEmail {J} _.
Arguments body_fromName {J} _.
Arguments body_to {J} _.
Arguments body_subject {J} _.
Arguments message {J} _.

(** What the handler answers: the status code and the JSON object. *)
Record Response : Type := {
  status : Z;
  success : bool;
  response_message : string;
}.

Section Handler.
Context {J : Type}.
Variable to_number : J -> number.
Variable net : Nodemailer.
Variable env : gmap string string.

(** The message of the [TypeError] the engine throws when the fields of
    an [undefined] value are read; its wording is the engine's. *)
Variable type_error_message : string.

Definition integrationConfig_of (b : Body J) : IntegrationEmailConfig :=
  {| smtp_host := smtpHost b;
     smtp_port := to_number (smtpPort b);
     smtp_user := smtpUser b;
     smtp_password := smtpPass b;
     smtp_secure := None;
     from_email := body_fromEmail b;
     from_name := body_fromName b |}.

Definition options_of (b : Body J) : SendEmailOptions :=
  {| to := body_to b;
     subject := body_subject b;
     text := message b;
     html := Some ("<p>" +:+ tpl (message b) +:+ "</p>");
     integrationConfig := Some (integrationConfig_of b);
     from := body_fromEmail b;
     fromName := body_fromName b;
     cc := None; bcc := None; attachments := None |}.

(** The handler on a request whose [req.body] is an object [b] (lines
    198-233): the log of network events and the response. *)
Definition post_send_email (b : Body J) : list NetEvent * Response :=
  match sendEmail net env (options_of b) with
  | (log, Normal _) =>
      (log, {| status := 200; success := true;
               response_message := "Email sent successfully!" |})
  | (log, Throw error) =>
      (log, {| status := 500; success := false;
               response_message :=
                 match error with
                 | Error m => m
                 | NonError => "Failed to send email"
                 end |})
  end.


End Handler.

End Server.

(** ** Sample inputs used to exercise the theorems *)

Module Samples.
Import JS Email Server.

Definition ic_2525 : IntegrationEmailConfig :=
  {| smtp_host := Some "smtp.x.com"; smtp_port := Num 2525;
     smtp_user := Some "u"; smtp_password := Some "p";
     smtp_secure := Some true;
     from_email := Some "f@x.com"; from_name := Some "Team" |}.

Definition ic_465 : IntegrationEmailConfig :=
  {| smtp_host := Some "smtp.x.com"; smtp_port := Num 465;
     smtp_user := Some "u"; smtp_password := Some "p";
     smtp_secure := Some false;
     from_email := Some "f@x.com"; from_name := None |}.

Definition ic_587 : IntegrationEmailConfig :=
  {| smtp_host := Some "smtp.x.com"; smtp_port := Num 587;
     smtp_user := Some "u"; smtp_password := Some "p";
     smtp_secure := Some true;
     from_email := Some "f@x.com"; from_name := None |}.

(** A host that is an email address, with complete credentials. *)
Definition ic_at : IntegrationEmailConfig :=
  {| smtp_host := Some "user@gmail.com"; smtp_port := Num 587;
     smtp_user := Some "u"; smtp_password := Some "p";
     smtp_secure := None;
     from_email := Some "f@x.com"; from_name := None |}.

(** The same host, without a user. *)
Definition ic_at_no_user : IntegrationEmailConfig :=
  {| smtp_host := Some "user@gmail.com"; smtp_port := Num 587;
     smtp_user := None; smtp_password := Some "p";
     smtp_secure := None;
     from_email := Some "f@x.com"; from_name := None |}.

Definition ic_no_password : IntegrationEmailConfig :=
  {| smtp_host := Some "smtp.x.com"; smtp_port := Num 587;
     smtp_user := Some "u"; smtp_password := Some EmptyString;
     smtp_secure := None;
     from_email := Some "f@x.com"; from_name := None |}.

(** The profile [ic_2525] resolves to. *)
Definition profile_2525 : EmailConfig :=
  {| host := Some "smtp.x.com"; port := Some (Num 2525);
     secure := Some true; requireTLS := None;
     auth := Some {| user := "u"; pass := "p" |};
     service := None; tls := None;
     logger := Some true; debug := Some true;
     connectionTimeout := Some 10000;
     greetingTimeout := Some 5000;
     socketTimeout := Some 10000 |}.

Definition env_creds : gmap string string :=
  <["EMAIL_USER" := "me@x.com"]> (<["EMAIL_PASSWORD" := "pw"]> ∅).

Definition env_host : gmap string string :=
  <["EMAIL_HOST" := "smtp.x.com"]> env_creds.

Definition env_host_465 : gmap string string :=
  <["EMAIL_PORT" := "465"]> env_host.

Definition env_host_2525 : gmap string string :=
  <["EMAIL_PORT" := "2525"]> env_host.

Definition env_service_and_host : gmap string string :=
  <["EMAIL_SERVICE" := "outlook"]> env_host_465.

Definition env_no_password : gmap string string :=
  <["EMAIL_USER" := "me@x.com"]> (<["EMAIL_HOST" := "smtp.x.com"]> ∅).

Definition env_from_name : gmap string string :=
  <["EMAIL_FROM_NAME" := "Ops"]> (<["EMAIL_FROM" := "ops@x.com"]> env_creds).

Definition net_ok : Nodemailer :=
  {| sendMail_outcome := fun _ _ => None; verify_outcome := fun _ => None |}.

Definition net_refused : Nodemailer :=
  {| sendMail_outcome := fun _ _ => Some (Error "connect ECONNREFUSED");
     verify_outcome := fun _ => Some (Error "connect ECONNREFUSED") |}.

Definition net_odd : Nodemailer :=
  {| sendMail_outcome := fun _ _ => Some NonError;
     verify_outcome := fun _ => Some NonError |}.

Definition options_for (ic : option IntegrationEmailConfig) : SendEmailOptions :=
  {| from := None; fromName := Some "Bob"; integrationConfig := ic;
     to := Some (Many ["a@x.com"; "b@x.com"]);
     subject := Some "hi"; text := Some "body"; html := None;
     cc := Some (One "c@x.com"); bcc := None; attachments := None |}.

Definition options_2525 : SendEmailOptions := options_for (Some ic_2525).

Definition options_plain (ic : option IntegrationEmailConfig) : SendEmailOptions :=
  {| from := None; fromName := None; integrationConfig := ic;
     to := Some (One "a@x.com");
     subject := Some "hi"; text := Some "body"; html := None;
     cc := None; bcc := None; attachments := None |}.

Definition ic_25 : IntegrationEmailConfig :=
  {| smtp_host := Some "mail.x.com"; smtp_port := Num 25;
     smtp_user := Some "u"; smtp_password := Some "p";
     smtp_secure := None;
     from_email := None; from_name := None |}.


(** The profile the request [body_465] resolves to. *)
Definition profile_465 : EmailConfig :=
  {| host := Some "smtp.x.com"; port := Some (Num 465);
     secure := Some true; requireTLS := None;
     auth := Some {| user := "u"; pass := "p" |};
     service := None; tls := None;
     logger := Some true; debug := Some true;
     connectionTimeout := Some 10000;
     greetingTimeout := Some 5000;
     socketTimeout := Some 10000 |}.

(** The profile [env_creds] resolves to. *)
Definition profile_gmail : EmailConfig :=
  set_service (env_base_config "me@x.com" "pw") (Some "gmail").


Definition env_host_at : gmap string string :=
  <["EMAIL_HOST" := "me@x.com"]> env_creds.

Definition env_other : gmap string string :=
  <["EMAIL_FROM_NAME" := "Other"]> (<["EMAIL_SERVICE" := "outlook"]> ∅).

Definition options_edge : SendEmailOptions :=
  {| from := None; fromName := None; integrationConfig := Some ic_2525;
     to := None; subject := None; text := Some "body";
     html := Some EmptyString;
     cc := Some (Many []); bcc := Some (One EmptyString);
     attachments := None |}.


Definition body_465 : Body Z :=
  {| smtpHost := Some "smtp.x.com"; smtpPort := 465;
     smtpUser := Some "u"; smtpPass := Some "p";
     body_fromEmail := None; body_fromName := Some "Ann";
     body_to := Some (Many ["a@x.com"; "b@x.com"]);
     body_subject := Some "hi"; message := None |}.

(** The request of the end-to-end test: an email address as the host. *)
Definition body_at : Body Z :=
  {| smtpHost := Some "foo@bar.com"; smtpPort := 587;
     smtpUser := Some "u"; smtpPass := Some "p";
     body_fromEmail := Some "f@x.com"; body_fromName := None;
     body_to := Some (One "a@x.com"); body_subject := Some "hi";
     message := Some "hello" |}.

Definition body_ok : Body Z :=
  {| smtpHost := Some "smtp.x.com"; smtpPort := 587;
     smtpUser := Some "u"; smtpPass := Some "p";
     body_fromEmail := Some "f@x.com"; body_fromName := None;
     body_to := Some (One "a@x.com"); body_subject := Some "hi";
     message := Some "hello" |}.

End Samples.

(** A value is shown to be neither absent nor empty by evaluation. *)
Ltac not_falsy := intros [E|E]; vm_compute in E; discriminate E.

(** ** Properties *)

Import JS Email Server.

(** *** Truthiness and string search *)

Lemma truthy_false_iff (v : option string) :
  truthy v = false <-> absent_or_empty v.
Proof.
  unfold absent_or_empty. destruct v as [[|c s]|]; simpl; split;
    intros H; auto; try discriminate; destruct H; discriminate.
Qed.

Lemma truthy_true_iff (v : option string) :
  truthy v = true <-> exists s, v = Some s /\ s <> EmptyString.
Proof.
  destruct v as [[|c s]|]; simpl; split; intros H; try discriminate.
  - destruct H as (s & [= <-] & Hs). congruence.
  - exists (String c s). split; [reflexivity | discriminate].
  - reflexivity.
  - destruct H as (s & [=] & _).
Qed.

Lemma prefix_append (s t : string) : String.prefix s (s +:+ t) = true.
Proof.
  induction s as [|c s IH]; simpl.
  - destruct t; reflexivity.
  - destruct (ascii_dec c c); [exact IH | congruence].
Qed.

Lemma includes_prefix (s sub : string) :
  String.prefix sub s = true -> includes s sub = true.
Proof. intros H. destruct s; simpl in *; rewrite H; reflexivity. Qed.

Lemma includes_append_l (a s sub : string) :
  includes s sub = true -> includes (a +:+ s) sub = true.
Proof.
  intros H. induction a as [|c a IH]; simpl; [exact H |].
  rewrite IH. apply orb_true_r.
Qed.

Lemma includes_middle (a s b : string) : includes (a +:+ s +:+ b) s = true.
Proof. apply includes_append_l, includes_prefix, prefix_append. Qed.

Lemma includes_cons (c : ascii) (s sub : string) :
  includes (String c s) sub
  = String.prefix sub (String c s) || includes s sub.
Proof. reflexivity. Qed.

Lemma prefix_char (a c : ascii) (s : string) :
  String.prefix (String a EmptyString) (String c s)
  = if ascii_dec a c then true else false.
Proof.
  change (String.prefix (String a EmptyString) (String c s))
    with (if ascii_dec a c then String.prefix EmptyString s else false).
  destruct (ascii_dec a c); [destruct s |]; reflexivity.
Qed.

(** [s.includes('@')] holds exactly when '@' is one of the characters
    of [s]. *)
Lemma includes_at_iff (s : string) :
  includes s "@" = true <-> In "@"%char (list_ascii_of_string s).
Proof.
  induction s as [|c s IH].
  - simpl. split; [discriminate | tauto].
  - rewrite includes_cons, prefix_char.
    change (list_ascii_of_string (String c s))
      with (c :: list_ascii_of_string s).
    destruct (ascii_dec "@" c) as [<-|Hne].
    + split; [intros _; left; reflexivity | reflexivity].
    + rewrite orb_false_l, IH. split; [right; assumption |].
      intros [H|H]; [congruence | assumption].
Qed.

(** *** The resolver, case by case *)

Lemma createTransporter_missing_fields env ic :
  truthy (smtp_host ic) = false \/ truthy (smtp_user ic) = false
  \/ truthy (smtp_password ic) = false ->
  createTransporter env (Some ic) = Throw (Error missing_fields_message).
Proof.
  intros H. unfold createTransporter.
  destruct H as [-> | [-> | ->]]; simpl;
    rewrite ?orb_true_r; reflexivity.
Qed.

Lemma createTransporter_invalid_host env ic :
  truthy (smtp_host ic) = true -> truthy (smtp_user ic) = true ->
  truthy (smtp_password ic) = true ->
  includes (the (smtp_host ic)) "@" = true ->
  createTransporter env (Some ic)
  = Throw (Error (invalid_host_message (the (smtp_host ic)))).
Proof.
  intros Hh Hu Hp Hat. unfold createTransporter.
  rewrite Hh, Hu, Hp, Hat. reflexivity.
Qed.

Lemma createTransporter_integration_inv env ic cfg :
  createTransporter env (Some ic) = Normal cfg ->
  truthy (smtp_host ic) = true /\ truthy (smtp_user ic) = true /\
  truthy (smtp_password ic) = true /\
  includes (the (smtp_host ic)) "@" = false /\
  cfg = {| host := smtp_host ic;
           port := Some (smtp_port ic);
           secure := Some (fst (security_of (smtp_port ic) (smtp_secure ic)));
           requireTLS := snd (security_of (smtp_port ic) (smtp_secure ic));
           auth := Some {| user := the (smtp_user ic);
                           pass := the (smtp_password ic) |};
           service := None; tls := None;
           logger := Some true; debug := Some true;
           connectionTimeout := Some 10000;
           greetingTimeout := Some 5000;
           socketTimeout := Some 10000 |}.
Proof.
  unfold createTransporter.
  destruct (truthy (smtp_host ic)); [| discriminate].
  destruct (truthy (smtp_user ic)); [| discriminate].
  destruct (truthy (smtp_password ic)); [| discriminate]. simpl.
  destruct (includes (the (smtp_host ic)) "@"); [discriminate |].
  destruct (security_of (smtp_port ic) (smtp_secure ic)) as [s r].
  intros [= <-]. auto.
Qed.

Lemma createTransporter_env_inv env cfg :
  createTransporter env None = Normal cfg ->
  truthy (env !! "EMAIL_USER") = true /\
  truthy (env !! "EMAIL_PASSWORD") = true /\
  let base := env_base_config (the (env !! "EMAIL_USER"))
                (the (env !! "EMAIL_PASSWORD")) in
  let emailPort := parseInt (or_str (env !! "EMAIL_PORT") "587") in
  cfg = if truthy (env !! "EMAIL_SERVICE")
        then set_service base (env !! "EMAIL_SERVICE")
        else if truthy (env !! "EMAIL_HOST")
        then set_host_port_secure base (env !! "EMAIL_HOST") emailPort
               (strict_eq emailPort (Num 465))
        else set_service base (Some "gmail").
Proof.
  unfold createTransporter.
  destruct (truthy (env !! "EMAIL_USER")); [| discriminate].
  destruct (truthy (env !! "EMAIL_PASSWORD")); [| discriminate]. simpl.
  destruct (truthy (env !! "EMAIL_SERVICE")); [intros [= <-]; auto |].
  destruct (truthy (env !! "EMAIL_HOST")); intros [= <-]; auto.
Qed.

Lemma strict_eq_iff (a : number) (p : positive) :
  strict_eq a (Num (Z.pos p)) = true <-> a = Num (Z.pos p).
Proof.
  destruct a as [|s| |x]; simpl.
  - split; discriminate.
  - split; discriminate.
  - split; discriminate.
  - rewrite Z.eqb_eq. split; congruence.
Qed.

Lemma strict_eq_false_iff (a : number) (p : positive) :
  strict_eq a (Num (Z.pos p)) = false <-> a <> Num (Z.pos p).
Proof.
  rewrite <- strict_eq_iff.
  destruct (strict_eq a (Num (Z.pos p))); split; congruence.
Qed.

Example parseInt_samples :
  parseInt "587" = Num 587 /\ parseInt " 465abc" = Num 465 /\
  parseInt "-12" = Num (-12) /\ parseInt "smtp" = NaN /\
  parseInt EmptyString = NaN.
Proof. repeat split; reflexivity. Qed.

(** *** [parseInt] on decimal numerals

    [pretty] is the decimal notation of the standard prelude; reading it
    back with [parseInt] gives the number, for every integer a double
    holds exactly. *)

Example parseInt_edge_samples :
  parseInt (String (ascii_of_nat 160) "465") = Num 465 /\
  parseInt "9007199254740993" = Num 9007199254740992 /\
  parseInt "9007199254740995" = Num 9007199254740996 /\
  parseInt "-0" = NegZero /\ parseInt "465.5" = Num 465 /\
  parseInt "+587 " = Num 587.
Proof. repeat split; reflexivity. Qed.

Lemma digit_value_pretty_N_char (d : N) :
  (d < 10)%N -> digit_value (pretty_N_char d) = Some (Z.of_N d).
Proof.
  intros H. rewrite <- (N2Nat.id d).
  assert (Hn : (N.to_nat d < 10)%nat) by lia.
  generalize dependent (N.to_nat d). clear H. intros k Hk.
  do 10 (destruct k as [|k]; [reflexivity |]). lia.
Qed.

Lemma pretty_N_char_plain (d : N) :
  is_white_space (pretty_N_char d) = false /\
  pretty_N_char d <> "-"%char /\ pretty_N_char d <> "+"%char.
Proof.
  unfold pretty_N_char.
  repeat case_match; (split; [reflexivity | split; discriminate]).
Qed.

Lemma parse_digits_pretty_N_go (x : N) (s : string) :
  (0 < x)%N ->
  parse_digits (pretty_N_go x s) None = parse_digits s (Some (Z.of_N x)).
Proof.
  revert s. induction (N.lt_wf_0 x) as [x _ IH]; intros s Hx.
  rewrite pretty_N_go_step by assumption.
  pose proof (N.div_mod x 10 ltac:(discriminate)) as Hdm.
  assert (Hmod : (x `mod` 10 < 10)%N) by (apply N.mod_lt; discriminate).
  destruct (decide (x `div` 10 = 0)%N) as [E|E].
  - rewrite E, pretty_N_go_0. cbn [parse_digits].
    rewrite (digit_value_pretty_N_char _ Hmod). cbn [from_option id].
    do 2 f_equal. revert Hdm. rewrite E.
    generalize (x `mod` 10)%N. lia.
  - rewrite IH;
      [| apply N.div_lt; [assumption | reflexivity] | apply N.neq_0_lt_0, E].
    cbn [parse_digits].
    rewrite (digit_value_pretty_N_char _ Hmod). cbn [from_option id].
    do 2 f_equal. revert Hdm.
    generalize (x `div` 10)%N (x `mod` 10)%N. lia.
Qed.

Lemma pretty_N_go_head (x : N) (s : string) :
  (0 < x)%N ->
  exists d r, pretty_N_go x s = String (pretty_N_char d) r.
Proof.
  revert s. induction (N.lt_wf_0 x) as [x _ IH]; intros s Hx.
  rewrite pretty_N_go_step by assumption.
  destruct (decide (x `div` 10 = 0)%N) as [E|E].
  - rewrite E, pretty_N_go_0. eauto.
  - apply IH; [apply N.div_lt; [assumption | reflexivity] |].
    apply N.neq_0_lt_0, E.
Qed.

Lemma parseInt_unsigned (c : ascii) (r : string) :
  is_white_space c = false -> c <> "-"%char -> c <> "+"%char ->
  parseInt (String c r)
  = match parse_digits (String c r) None with
    | Some m => round_to_double false m
    | None => NaN
    end.
Proof.
  intros Hws Hm Hp.
  destruct c as [[] [] [] [] [] [] [] []];
    vm_compute in Hws; try discriminate; try congruence; reflexivity.
Qed.

Lemma round_to_double_exact (negative : bool) (m : Z) :
  0 < m < 2 ^ 53 ->
  round_to_double negative m = Num (if negative then - m else m).
Proof.
  intros Hm. unfold round_to_double.
  destruct (Z.eqb_spec m 0) as [E|_]; [lia |].
  assert (Hl : Z.log2 m < 53) by (apply Z.log2_lt_pow2; lia).
  destruct (Z.leb_spec (Z.log2 m + 1 - 53) 0) as [_|H]; [| lia].
  assert (Hp : 2 ^ 53 <= 2 ^ 1024) by (apply Z.pow_le_mono_r; lia).
  destruct (Z.leb_spec (2 ^ 1024) m) as [H|_]; [lia | reflexivity].
Qed.

(** Reading a decimal numeral back. *)
Lemma parseInt_pretty_N (n : N) :
  Z.of_N n < 2 ^ 53 -> parseInt (pretty n) = Num (Z.of_N n).
Proof.
  intros Hn. unfold pretty, pretty_N.
  destruct (decide (n = 0)%N) as [-> | Hne]; [reflexivity |].
  assert (Hpos : (0 < n)%N) by lia.
  destruct (pretty_N_go_head n EmptyString Hpos) as (d & r & Hhead).
  destruct (pretty_N_char_plain d) as (Hws & Hm & Hp).
  rewrite Hhead, (parseInt_unsigned _ r Hws Hm Hp), <- Hhead.
  rewrite (parse_digits_pretty_N_go n EmptyString Hpos).
  cbn [parse_digits]. apply (round_to_double_exact false). lia.
Qed.

Lemma pretty_N_truthy (n : N) : or_str (Some (pretty n)) "587" = pretty n.
Proof.
  unfold pretty, pretty_N.
  destruct (decide (n = 0)%N) as [-> | Hne]; [reflexivity |].
  destruct (pretty_N_go_head n EmptyString ltac:(lia)) as (d & r & ->).
  reflexivity.
Qed.

(** *** The dispatcher, case by case *)

Lemma sendEmail_resolved net env options t :
  createTransporter env (integrationConfig options) = Normal t ->
  sendEmail net env options
  = ([SentMail t (mailOptions_of env options)],
     match sendMail_outcome net t (mailOptions_of env options) with
     | None => Normal tt
     | Some e => Throw (Error (send_failure_prefix +:+ message_of e))
     end).
Proof.
  intros H. unfold sendEmail, io_lift, io_bind, sendMail. rewrite H.
  destruct (sendMail_outcome net t (mailOptions_of env options));
    reflexivity.
Qed.

Lemma sendEmail_unresolved net env options e :
  createTransporter env (integrationConfig options) = Throw e ->
  sendEmail net env options
  = ([], Throw (Error (send_failure_prefix +:+ message_of e))).
Proof.
  intros H. unfold sendEmail, io_lift, io_bind. rewrite H. reflexivity.
Qed.

Lemma absent_or_empty_dec (v : option string) :
  absent_or_empty v \/ truthy v = true.
Proof.
  destruct (truthy v) eqn:E; [right; reflexivity | left].
  apply truthy_false_iff, E.
Qed.

Lemma not_absent_or_empty (v : option string) :
  ~ absent_or_empty v <-> truthy v = true.
Proof.
  rewrite <- truthy_false_iff. destruct (truthy v); split; congruence.
Qed.

(** *** The transport resolver *)

(** C1. For an integration config that passes validation, the security
    fields of the resolved profile follow the port: port 465 gives
    [secure = true] and no [requireTLS]; port 587 gives [secure = false]
    and [requireTLS = true]; any other port takes [secure] from
    [smtp_secure] (false when absent) and sets [requireTLS = true] exactly
    when [secure] is false, leaving it unset otherwise. *)
Theorem integration_security_from_port env ic cfg :
  createTransporter env (Some ic) = Normal cfg ->
  (smtp_port ic = Num 465 ->
     secure cfg = Some true /\ requireTLS cfg = None) /\
  (smtp_port ic = Num 587 ->
     secure cfg = Some false /\ requireTLS cfg = Some true) /\
  (smtp_port ic <> Num 465 -> smtp_port ic <> Num 587 ->
     secure cfg = Some (default false (smtp_secure ic)) /\
     requireTLS cfg
     = if default false (smtp_secure ic) then None else Some true).
Proof.
  intros H. apply createTransporter_integration_inv in H.
  destruct H as (_ & _ & _ & _ & ->). cbn [secure requireTLS].
  unfold security_of. repeat split.
  - rewrite H. reflexivity.
  - rewrite H. reflexivity.
  - rewrite H. reflexivity.
  - rewrite H. reflexivity.
  - apply strict_eq_false_iff in H, H0. rewrite H, H0.
    destruct (smtp_secure ic) as [[]|]; reflexivity.
  - apply strict_eq_false_iff in H, H0. rewrite H, H0.
    destruct (smtp_secure ic) as [[]|]; reflexivity.
Qed.

Lemma integration_security_from_port_witness :
  (exists cfg, createTransporter ∅ (Some Samples.ic_465) = Normal cfg /\
     secure cfg = Some true /\ requireTLS cfg = None) /\
  (exists cfg, createTransporter ∅ (Some Samples.ic_587) = Normal cfg /\
     secure cfg = Some false /\ requireTLS cfg = Some true) /\
  (exists cfg, createTransporter ∅ (Some Samples.ic_2525) = Normal cfg /\
     secure cfg = Some true /\ requireTLS cfg = None).
Proof.
  split; [| split]; eexists; (split; [reflexivity |]).
  - apply (integration_security_from_port ∅ Samples.ic_465);
      reflexivity.
  - apply (integration_security_from_port ∅ Samples.ic_587);
      reflexivity.
  - apply (integration_security_from_port ∅ Samples.ic_2525);
      [reflexivity | discriminate | discriminate].
Defined.

(** C2, as the code has it. An integration config whose [smtp_host]
    contains '@' never resolves, whatever its other fields, and nothing
    reaches the network. The error is the one about the host, quoting the
    offending value and suggesting a server address, when [smtp_user] and
    [smtp_password] are both non-empty; when one of them is absent or
    empty the missing-fields check comes first and its error is the one
    reported. *)
Theorem host_with_at_rejected net env options ic h :
  integrationConfig options = Some ic ->
  smtp_host ic = Some h ->
  In "@"%char (list_ascii_of_string h) ->
  (exists m, createTransporter env (Some ic) = Throw (Error m)) /\
  (~ absent_or_empty (smtp_user ic) ->
   ~ absent_or_empty (smtp_password ic) ->
     createTransporter env (Some ic)
     = Throw (Error ("Invalid SMTP Host: " +:+ dquote +:+ h +:+ dquote +:+
                     " is an email address. Use server address like " +:+
                     dquote +:+ "smtp.gmail.com" +:+ dquote)) /\
     includes (invalid_host_message h) h = true /\
     includes (invalid_host_message h) "smtp.gmail.com" = true) /\
  (absent_or_empty (smtp_user ic) \/ absent_or_empty (smtp_password ic) ->
     createTransporter env (Some ic)
     = Throw (Error "Invalid integration config: missing required SMTP fields")) /\
  log_of (sendEmail net env options) = [].
Proof.
  intros Hic Hh Hat.
  assert (Hth : truthy (smtp_host ic) = true).
  { rewrite Hh. destruct h; [destruct Hat | reflexivity]. }
  assert (Hinc : includes (the (smtp_host ic)) "@" = true).
  { rewrite Hh. apply includes_at_iff, Hat. }
  assert (Hhost :
    truthy (smtp_user ic) = true -> truthy (smtp_password ic) = true ->
    createTransporter env (Some ic) = Throw (Error (invalid_host_message h))).
  { intros Hu Hp.
    rewrite (createTransporter_invalid_host env ic Hth Hu Hp Hinc), Hh.
    reflexivity. }
  assert (Hmiss :
    absent_or_empty (smtp_user ic) \/ absent_or_empty (smtp_password ic) ->
    createTransporter env (Some ic) = Throw (Error missing_fields_message)).
  { intros Hm. apply createTransporter_missing_fields.
    right. rewrite !truthy_false_iff. exact Hm. }
  assert (Hfail : exists m, createTransporter env (Some ic) = Throw (Error m)).
  { destruct (absent_or_empty_dec (smtp_user ic)) as [Hu|Hu];
      [eexists; apply Hmiss; left; exact Hu |].
    destruct (absent_or_empty_dec (smtp_password ic)) as [Hp|Hp];
      [eexists; apply Hmiss; right; exact Hp |].
    eexists. apply Hhost; assumption. }
  split; [exact Hfail |]. split; [| split; [exact Hmiss |]].
  - intros Hu Hp. apply not_absent_or_empty in Hu, Hp.
    split; [apply Hhost; assumption |]. split.
    + unfold invalid_host_message.
      apply includes_append_l, includes_middle.
    + unfold invalid_host_message.
      do 6 apply includes_append_l. reflexivity.
  - destruct Hfail as (m & Hm). rewrite <- Hic in Hm.
    rewrite (sendEmail_unresolved net env options _ Hm). reflexivity.
Qed.

Lemma host_with_at_rejected_witness :
  createTransporter ∅ (Some Samples.ic_at)
  = Throw (Error ("Invalid SMTP Host: " +:+ dquote +:+ "user@gmail.com"
                  +:+ dquote +:+
                  " is an email address. Use server address like " +:+
                  dquote +:+ "smtp.gmail.com" +:+ dquote)) /\
  log_of (sendEmail Samples.net_ok ∅ (Samples.options_for (Some Samples.ic_at)))
  = [].
Proof.
  pose proof (host_with_at_rejected Samples.net_ok ∅
                (Samples.options_for (Some Samples.ic_at)) Samples.ic_at
                "user@gmail.com" eq_refl eq_refl) as H.
  destruct H as (_ & Hhost & _ & Hlog).
  - vm_compute. tauto.
  - split; [| exact Hlog].
    apply Hhost; intros [E|E]; discriminate E.
Defined.

(** C2 as it was stated fails: with the host "user@gmail.com" and no
    [smtp_user], resolution fails with the missing-fields error, which
    does not name the host. *)
Lemma host_with_at_missing_user_counterexample :
  smtp_host Samples.ic_at_no_user = Some "user@gmail.com" /\
  In "@"%char (list_ascii_of_string "user@gmail.com") /\
  createTransporter ∅ (Some Samples.ic_at_no_user)
  = Throw (Error "Invalid integration config: missing required SMTP fields") /\
  ~ (exists m, createTransporter ∅ (Some Samples.ic_at_no_user)
               = Throw (Error m) /\
               includes m "user@gmail.com" = true).
Proof.
  split; [reflexivity |]. split; [vm_compute; tauto |].
  split; [reflexivity |].
  intros (m & Hm & Hinc). vm_compute in Hm.
  injection Hm as <-. vm_compute in Hinc. discriminate Hinc.
Qed.

(** C3. An integration config in which [smtp_host], [smtp_user] or
    [smtp_password] is empty or absent does not resolve: the resolver
    throws the error "Invalid integration config: missing required SMTP
    fields", no profile is produced, and [sendEmail] fails without any
    network event. *)
Theorem missing_smtp_fields_rejected net env options ic :
  integrationConfig options = Some ic ->
  absent_or_empty (smtp_host ic) \/ absent_or_empty (smtp_user ic)
  \/ absent_or_empty (smtp_password ic) ->
  createTransporter env (Some ic)
  = Throw (Error "Invalid integration config: missing required SMTP fields") /\
  includes "Invalid integration config: missing required SMTP fields"
    "missing required SMTP fields" = true /\
  (forall cfg, createTransporter env (Some ic) <> Normal cfg) /\
  log_of (sendEmail net env options) = [] /\
  (exists e, result_of (sendEmail net env options) = Throw e).
Proof.
  intros Hic Hm.
  assert (H : createTransporter env (Some ic)
              = Throw (Error missing_fields_message)).
  { apply createTransporter_missing_fields.
    rewrite !truthy_false_iff. exact Hm. }
  split; [exact H |]. split; [reflexivity |].
  split; [intros cfg; rewrite H; discriminate |].
  rewrite <- Hic in H.
  rewrite (sendEmail_unresolved net env options _ H).
  split; [reflexivity | eexists; reflexivity].
Qed.

Lemma missing_smtp_fields_rejected_witness :
  createTransporter ∅ (Some Samples.ic_no_password)
  = Throw (Error "Invalid integration config: missing required SMTP fields") /\
  log_of (sendEmail Samples.net_ok ∅
            (Samples.options_for (Some Samples.ic_no_password))) = [].
Proof.
  pose proof (missing_smtp_fields_rejected Samples.net_ok ∅
                (Samples.options_for (Some Samples.ic_no_password))
                Samples.ic_no_password eq_refl) as H.
  destruct H as (Hc & _ & _ & Hlog & _).
  - right. right. right. reflexivity.
  - split; [exact Hc | exact Hlog].
Defined.

(** C7. Every profile the resolver returns, from an integration config or
    from the environment, carries the timeouts 10000 ms (connection),
    5000 ms (greeting) and 10000 ms (socket), whatever the inputs. *)
Theorem resolved_timeouts_fixed env ic cfg :
  createTransporter env ic = Normal cfg ->
  connectionTimeout cfg = Some 10000 /\
  greetingTimeout cfg = Some 5000 /\
  socketTimeout cfg = Some 10000.
Proof.
  destruct ic as [ic|]; intros H.
  - apply createTransporter_integration_inv in H.
    destruct H as (_ & _ & _ & _ & ->). auto.
  - apply createTransporter_env_inv in H.
    destruct H as (_ & _ & ->).
    destruct (truthy (env !! "EMAIL_SERVICE")); [auto |].
    destruct (truthy (env !! "EMAIL_HOST")); auto.
Qed.

Lemma resolved_timeouts_fixed_witness :
  (exists cfg, createTransporter ∅ (Some Samples.ic_2525) = Normal cfg /\
     connectionTimeout cfg = Some 10000 /\
     greetingTimeout cfg = Some 5000 /\
     socketTimeout cfg = Some 10000) /\
  (exists cfg, createTransporter Samples.env_host_465 None = Normal cfg /\
     connectionTimeout cfg = Some 10000 /\
     greetingTimeout cfg = Some 5000 /\
     socketTimeout cfg = Some 10000).
Proof.
  split; eexists; (split; [reflexivity |]).
  - apply (resolved_timeouts_fixed ∅ (Some Samples.ic_2525)). reflexivity.
  - apply (resolved_timeouts_fixed Samples.env_host_465 None). reflexivity.
Defined.

(** C4. Without an integration config the resolver reads the environment.
    It throws "Email configuration is missing. Please set EMAIL_USER and
    EMAIL_PASSWORD in .env" when [EMAIL_USER] or [EMAIL_PASSWORD] is absent
    (or empty). Otherwise it returns a profile: with [EMAIL_SERVICE] set,
    the profile names that service and has no host, whether or not
    [EMAIL_HOST] is set; with only [EMAIL_HOST] set, the profile has that
    host, the port [parseInt] reads from [EMAIL_PORT] (587 when it is
    unset; the number [n] when it is the decimal numeral of [n]) and
    [secure = true] exactly when that port is 465; with neither set, the
    profile names the service "gmail". *)
Theorem environment_resolution env :
  (absent_or_empty (env !! "EMAIL_USER")
   \/ absent_or_empty (env !! "EMAIL_PASSWORD") ->
     createTransporter env None
     = Throw (Error "Email configuration is missing. Please set EMAIL_USER and EMAIL_PASSWORD in .env")) /\
  (~ absent_or_empty (env !! "EMAIL_USER") ->
   ~ absent_or_empty (env !! "EMAIL_PASSWORD") ->
     exists cfg, createTransporter env None = Normal cfg /\
       auth cfg = Some {| user := the (env !! "EMAIL_USER");
                          pass := the (env !! "EMAIL_PASSWORD") |} /\
       (~ absent_or_empty (env !! "EMAIL_SERVICE") ->
          service cfg = env !! "EMAIL_SERVICE" /\ host cfg = None /\
          port cfg = None /\ secure cfg = None) /\
       (absent_or_empty (env !! "EMAIL_SERVICE") ->
        ~ absent_or_empty (env !! "EMAIL_HOST") ->
          service cfg = None /\ host cfg = env !! "EMAIL_HOST" /\
          port cfg = Some (parseInt (or_str (env !! "EMAIL_PORT") "587")) /\
          (absent_or_empty (env !! "EMAIL_PORT") ->
             port cfg = Some (Num 587)) /\
          (exists b, secure cfg = Some b) /\
          (secure cfg = Some true <-> port cfg = Some (Num 465)) /\
          (forall n : N, env !! "EMAIL_PORT" = Some (pretty n) ->
             Z.of_N n < 2 ^ 53 ->
             port cfg = Some (Num (Z.of_N n)) /\
             (secure cfg = Some true <-> n = 465%N))) /\
       (absent_or_empty (env !! "EMAIL_SERVICE") ->
        absent_or_empty (env !! "EMAIL_HOST") ->
          service cfg = Some "gmail" /\ host cfg = None /\
          port cfg = None /\ secure cfg = None)).
Proof.
  split.
  - intros H. rewrite <- !truthy_false_iff in H. unfold createTransporter.
    destruct H as [-> | ->]; rewrite ?orb_true_r; reflexivity.
  - intros Hu Hp. apply not_absent_or_empty in Hu, Hp.
    unfold createTransporter. rewrite Hu, Hp. cbn [negb orb].
    destruct (truthy (env !! "EMAIL_SERVICE")) eqn:Hs;
      [| destruct (truthy (env !! "EMAIL_HOST")) eqn:Hh];
      eexists; (split; [reflexivity |]); (split; [reflexivity |]);
      rewrite <- ?not_absent_or_empty, <- ?truthy_false_iff, ?Hs, ?Hh;
      cbn [service host port secure set_service set_host_port_secure
           env_base_config].
    + split; [auto |]. split; intros; congruence.
    + split; [intros; congruence |]. split; [| intros; congruence].
      intros _ _. split; [reflexivity |]. split; [reflexivity |].
      split; [reflexivity |]. split.
      * intros Hport.
        destruct (env !! "EMAIL_PORT") as [[|c p]|];
          [reflexivity | discriminate Hport | reflexivity].
      * split; [eexists; reflexivity |]. split.
        { destruct (strict_eq _ (Num 465)) eqn:E;
            [apply strict_eq_iff in E | apply strict_eq_false_iff in E];
            split; intros; congruence. }
        intros n Hn Hlt.
        rewrite Hn, pretty_N_truthy, (parseInt_pretty_N n Hlt).
        split; [reflexivity |]. cbn [strict_eq].
        split; [intros [= H%Z.eqb_eq]; lia | intros ->; reflexivity].
    + split; [intros; congruence |]. split; [intros; congruence |]. auto.
Qed.

Lemma environment_resolution_witness :
  createTransporter Samples.env_no_password None
  = Throw (Error "Email configuration is missing. Please set EMAIL_USER and EMAIL_PASSWORD in .env") /\
  (exists cfg, createTransporter Samples.env_service_and_host None = Normal cfg /\
     service cfg = Some "outlook" /\ host cfg = None) /\
  (exists cfg, createTransporter Samples.env_host None = Normal cfg /\
     host cfg = Some "smtp.x.com" /\ port cfg = Some (Num 587)) /\
  (exists cfg, createTransporter Samples.env_creds None = Normal cfg /\
     service cfg = Some "gmail" /\ host cfg = None) /\
  (exists cfg, createTransporter Samples.env_host_465 None = Normal cfg /\
     port cfg = Some (Num 465) /\ secure cfg = Some true) /\
  (exists cfg, createTransporter Samples.env_host_2525 None = Normal cfg /\
     port cfg = Some (Num 2525) /\ secure cfg <> Some true).
Proof.
  split; [| split; [| split; [| split; [| split]]]].
  - apply (environment_resolution Samples.env_no_password).
    right. left. reflexivity.
  - destruct (environment_resolution Samples.env_service_and_host)
      as (_ & H).
    destruct H as (cfg & Hc & _ & Hs & _); [not_falsy | not_falsy |].
    exists cfg. split; [exact Hc |].
    destruct Hs as (Hs & Hh & _); [not_falsy |].
    split; [rewrite Hs; reflexivity | exact Hh].
  - destruct (environment_resolution Samples.env_host) as (_ & H).
    destruct H as (cfg & Hc & _ & _ & Hh & _); [not_falsy | not_falsy |].
    exists cfg. split; [exact Hc |].
    destruct Hh as (_ & Hh & _ & Hp & _);
      [left; reflexivity | not_falsy |].
    split; [rewrite Hh; reflexivity | apply Hp; left; reflexivity].
  - destruct (environment_resolution Samples.env_creds) as (_ & H).
    destruct H as (cfg & Hc & _ & _ & _ & Hg); [not_falsy | not_falsy |].
    exists cfg. split; [exact Hc |].
    destruct Hg as (Hs & Hh & _); [left; reflexivity | left; reflexivity |].
    split; [exact Hs | exact Hh].
  - destruct (environment_resolution Samples.env_host_465) as (_ & H).
    destruct H as (cfg & Hc & _ & _ & Hh & _); [not_falsy | not_falsy |].
    exists cfg. split; [exact Hc |].
    destruct Hh as (_ & _ & _ & _ & _ & _ & Hn);
      [left; reflexivity | not_falsy |].
    destruct (Hn 465%N eq_refl) as (Hp & Hs); [reflexivity |].
    split; [exact Hp | apply Hs; reflexivity].
  - destruct (environment_resolution Samples.env_host_2525) as (_ & H).
    destruct H as (cfg & Hc & _ & _ & Hh & _); [not_falsy | not_falsy |].
    exists cfg. split; [exact Hc |].
    destruct Hh as (_ & _ & _ & _ & _ & _ & Hn);
      [left; reflexivity | not_falsy |].
    destruct (Hn 2525%N eq_refl) as (Hp & Hs); [reflexivity |].
    split; [exact Hp |]. intros Ht. apply Hs in Ht. discriminate Ht.
Defined.

(** *** The mail dispatcher *)

(** What [sendEmail] hands to the network is the message built from the
    options, on the transporter the resolver returned. *)
Lemma sendEmail_log_inv net env options t m :
  In (SentMail t m) (log_of (sendEmail net env options)) ->
  createTransporter env (integrationConfig options) = Normal t /\
  m = mailOptions_of env options.
Proof.
  destruct (createTransporter env (integrationConfig options)) as [t'|e] eqn:E.
  - rewrite (sendEmail_resolved net env options t' E). simpl.
    intros [[= <- <-] | []]. auto.
  - rewrite (sendEmail_unresolved net env options e E). simpl. tauto.
Qed.

Lemma join_cons (sep x y : string) (l : list string) :
  join sep (x :: y :: l) = x +:+ sep +:+ join sep (y :: l).
Proof. reflexivity. Qed.

Lemma append_assoc (a b c : string) : (a +:+ b) +:+ c = a +:+ (b +:+ c).
Proof.
  induction a as [|x a IH]; [reflexivity |].
  change (String x ((a +:+ b) +:+ c) = String x (a +:+ (b +:+ c))).
  rewrite IH. reflexivity.
Qed.

(** Joining keeps the order: the join of a concatenation is the join of
    the first part, the separator, and the join of the second part. *)
Lemma join_app (sep : string) (l1 l2 : list string) :
  l1 <> [] -> l2 <> [] ->
  join sep (l1 ++ l2)%list = join sep l1 +:+ sep +:+ join sep l2.
Proof.
  intros H1 H2. induction l1 as [|x [|y l1] IH]; [congruence | |].
  - destruct l2; [congruence | reflexivity].
  - change ((x :: y :: l1) ++ l2)%list with (x :: y :: (l1 ++ l2))%list.
    rewrite !join_cons.
    change (y :: (l1 ++ l2))%list with ((y :: l1) ++ l2)%list.
    rewrite IH by discriminate. rewrite !append_assoc. reflexivity.
Qed.

(** [join] is the standard library's [String.concat]. *)
Lemma join_concat (sep : string) (l : list string) :
  join sep l = String.concat sep l.
Proof.
  induction l as [|x [|y l] IH]; [reflexivity | reflexivity |].
  rewrite join_cons, IH. reflexivity.
Qed.

(** C5. In the message [sendEmail] hands to the transport, [to], [cc] and
    [bcc] are normalised: a single address is passed unchanged, an array
    of addresses is joined with ", " in order (["a@x.com", "b@x.com"]
    gives "a@x.com, b@x.com"), and [cc] and [bcc] are [undefined] when
    the options do not provide them. *)
Theorem recipients_normalised net env options t m :
  In (SentMail t m) (log_of (sendEmail net env options)) ->
  (forall a, to options = Some (One a) -> mail_to m = Some a) /\
  (forall l, to options = Some (Many l) ->
     mail_to m = Some (String.concat ", " l)) /\
  (forall a, cc options = Some (One a) -> a <> EmptyString -> mail_cc m = Some a) /\
  (forall l, cc options = Some (Many l) ->
     mail_cc m = Some (String.concat ", " l)) /\
  (cc options = None -> mail_cc m = None) /\
  (forall a, bcc options = Some (One a) -> a <> EmptyString -> mail_bcc m = Some a) /\
  (forall l, bcc options = Some (Many l) ->
     mail_bcc m = Some (String.concat ", " l)) /\
  (bcc options = None -> mail_bcc m = None) /\
  (to options = Some (Many ["a@x.com"; "b@x.com"]) ->
     mail_to m = Some "a@x.com, b@x.com") /\
  (forall l1 l2, l1 <> [] -> l2 <> [] ->
     to options = Some (Many (l1 ++ l2)) ->
     mail_to m = Some (join ", " l1 +:+ ", " +:+ join ", " l2)).
Proof.
  intros H. apply sendEmail_log_inv in H. destruct H as (_ & ->).
  unfold mailOptions_of, optional_addresses.
  cbn [mail_to mail_cc mail_bcc].
  repeat split.
  - intros a ->. reflexivity.
  - intros l ->. simpl. rewrite join_concat. reflexivity.
  - intros a -> Ha. destruct a; [congruence | reflexivity].
  - intros l ->. simpl. rewrite join_concat. reflexivity.
  - intros ->. reflexivity.
  - intros a -> Ha. destruct a; [congruence | reflexivity].
  - intros l ->. simpl. rewrite join_concat. reflexivity.
  - intros ->. reflexivity.
  - intros ->. reflexivity.
  - intros l1 l2 H1 H2 ->. simpl. rewrite join_app by assumption.
    reflexivity.
Qed.

Lemma recipients_normalised_witness :
  log_of (sendEmail Samples.net_ok ∅ Samples.options_2525)
  = [SentMail Samples.profile_2525
       (mailOptions_of ∅ Samples.options_2525)] /\
  mail_to (mailOptions_of ∅ Samples.options_2525)
  = Some "a@x.com, b@x.com" /\
  mail_cc (mailOptions_of ∅ Samples.options_2525) = Some "c@x.com" /\
  mail_bcc (mailOptions_of ∅ Samples.options_2525) = None.
Proof.
  split; [reflexivity |].
  destruct (recipients_normalised Samples.net_ok ∅ Samples.options_2525
              Samples.profile_2525
              (mailOptions_of ∅ Samples.options_2525))
    as (_ & _ & Hcc & _ & _ & _ & _ & Hbcc & Hto & _).
  - left. reflexivity.
  - split; [apply Hto; reflexivity |].
    split; [apply (Hcc "c@x.com"); [reflexivity | discriminate] |].
    apply Hbcc. reflexivity.
Defined.

(** C6. The sender header of the message handed to the transport has the
    shape ["name" <email>]. A non-empty [fromName] (resp. [from]) of the
    request is used on both paths. Failing that, with an integration
    config the name is its [from_name], else "aNquest+", and the address
    is its [from_email]; the environment is not consulted. Without an
    integration config the name is [EMAIL_FROM_NAME], else "aNquest+",
    and the address is [EMAIL_FROM], else [EMAIL_USER]. *)
Theorem sender_header_precedence net env options t m :
  In (SentMail t m) (log_of (sendEmail net env options)) ->
  exists (name : string) (email : option string),
    mail_from m
    = dquote +:+ name +:+ dquote +:+ " <" +:+ tpl email +:+ ">" /\
    (forall n, fromName options = Some n -> n <> EmptyString -> name = n) /\
    (absent_or_empty (fromName options) ->
       match integrationConfig options with
       | Some ic =>
           (forall n, from_name ic = Some n -> n <> EmptyString -> name = n) /\
           (absent_or_empty (from_name ic) -> name = "aNquest+")
       | None =>
           (forall n, env !! "EMAIL_FROM_NAME" = Some n -> n <> EmptyString ->
              name = n) /\
           (absent_or_empty (env !! "EMAIL_FROM_NAME") -> name = "aNquest+")
       end) /\
    (forall e, from options = Some e -> e <> EmptyString -> email = Some e) /\
    (absent_or_empty (from options) ->
       match integrationConfig options with
       | Some ic => email = from_email ic
       | None =>
           (forall e, env !! "EMAIL_FROM" = Some e -> e <> EmptyString ->
              email = Some e) /\
           (absent_or_empty (env !! "EMAIL_FROM") ->
              email = env !! "EMAIL_USER")
       end).
Proof.
  intros H. apply sendEmail_log_inv in H. destruct H as (Ht & ->).
  exists (fromName_of env options), (fromEmail_of env options).
  split; [reflexivity |].
  unfold fromName_of, fromEmail_of.
  destruct (integrationConfig options) as [ic|]; repeat split.
  - intros n -> Hn. destruct n; [congruence | reflexivity].
  - intros n Hic Hn. destruct H as [-> | ->]; rewrite Hic;
      (destruct n; [congruence | reflexivity]).
  - intros Hic. destruct H as [-> | ->];
      destruct Hic as [-> | ->]; reflexivity.
  - intros e -> He. destruct e; [congruence | reflexivity].
  - intros [-> | ->]; reflexivity.
  - intros n -> Hn. destruct n; [congruence | reflexivity].
  - intros n Hic Hn. destruct H as [-> | ->]; rewrite Hic;
      (destruct n; [congruence | reflexivity]).
  - intros Hic. destruct H as [-> | ->];
      destruct Hic as [-> | ->]; reflexivity.
  - intros e -> He. destruct e; [congruence | reflexivity].
  - intros e He Hne. destruct H as [-> | ->]; rewrite He;
      (destruct e; [congruence | reflexivity]).
  - intros Hf. apply createTransporter_env_inv in Ht.
    destruct Ht as (Hu & _). apply truthy_true_iff in Hu.
    destruct Hu as (u & -> & Hu).
    destruct H as [-> | ->]; destruct Hf as [-> | ->];
      (destruct u; [congruence | reflexivity]).
Qed.

Lemma sender_header_precedence_witness :
  log_of (sendEmail Samples.net_ok Samples.env_from_name
            Samples.options_2525)
  = [SentMail Samples.profile_2525
       (mailOptions_of Samples.env_from_name Samples.options_2525)] /\
  mail_from (mailOptions_of Samples.env_from_name Samples.options_2525)
  = dquote +:+ "Bob" +:+ dquote +:+ " <f@x.com>".
Proof.
  split; [reflexivity |].
  destruct (sender_header_precedence Samples.net_ok Samples.env_from_name
              Samples.options_2525 Samples.profile_2525
              (mailOptions_of Samples.env_from_name Samples.options_2525))
    as (name & email & Hm & Hn & _ & _ & He).
  - left. reflexivity.
  - rewrite Hm, (Hn "Bob" eq_refl), (He (or_introl eq_refl));
      [reflexivity | discriminate].
Defined.

(** The lower levels of the precedence, on sample inputs: the environment
    without an integration config, the product default, and the
    integration config in spite of the environment. *)
Example sender_defaults_samples :
  mail_from (mailOptions_of Samples.env_from_name (Samples.options_plain None))
  = dquote +:+ "Ops" +:+ dquote +:+ " <ops@x.com>" /\
  mail_from (mailOptions_of Samples.env_creds (Samples.options_plain None))
  = dquote +:+ "aNquest+" +:+ dquote +:+ " <me@x.com>" /\
  mail_from (mailOptions_of Samples.env_from_name
               (Samples.options_plain (Some Samples.ic_2525)))
  = dquote +:+ "Team" +:+ dquote +:+ " <f@x.com>".
Proof. repeat split; reflexivity. Qed.

(** C8. When the transport rejects the message, [sendEmail] does not let
    that value through: it throws an [Error] whose message is "Failed to
    send email: " followed by the message of the underlying error, or by
    "Unknown error" when what was thrown is not an [Error]. *)
Theorem send_failure_rewrapped net env options t e :
  createTransporter env (integrationConfig options) = Normal t ->
  sendMail_outcome net t (mailOptions_of env options) = Some e ->
  sendEmail net env options
  = ([SentMail t (mailOptions_of env options)],
     Throw (Error ("Failed to send email: " +:+
                   match e with
                   | Error msg => msg
                   | NonError => "Unknown error"
                   end))).
Proof.
  intros Ht He. rewrite (sendEmail_resolved net env options t Ht), He.
  destruct e; reflexivity.
Qed.

Lemma send_failure_rewrapped_witness :
  result_of (sendEmail Samples.net_refused ∅ Samples.options_2525)
  = Throw (Error "Failed to send email: connect ECONNREFUSED") /\
  result_of (sendEmail Samples.net_odd ∅ Samples.options_2525)
  = Throw (Error "Failed to send email: Unknown error").
Proof.
  split.
  - rewrite (send_failure_rewrapped Samples.net_refused ∅
               Samples.options_2525 Samples.profile_2525
               (Error "connect ECONNREFUSED") eq_refl eq_refl).
    reflexivity.
  - rewrite (send_failure_rewrapped Samples.net_odd ∅
               Samples.options_2525 Samples.profile_2525
               NonError eq_refl eq_refl).
    reflexivity.
Defined.

(** *** The probe *)

Lemma verifyEmailConfig_resolved net env t :
  createTransporter env None = Normal t ->
  verifyEmailConfig net env
  = ([Verified t],
     match verify_outcome net t with
     | None => Normal true
     | Some _ => Normal false
     end).
Proof.
  intros H. unfold verifyEmailConfig, io_lift, io_bind, verify. rewrite H.
  destruct (verify_outcome net t); reflexivity.
Qed.

Lemma verifyEmailConfig_unresolved net env e :
  createTransporter env None = Throw e ->
  verifyEmailConfig net env = ([], Normal false).
Proof.
  intros H. unfold verifyEmailConfig, io_lift, io_bind. rewrite H.
  reflexivity.
Qed.

(** C9. [verifyEmailConfig] resolves the profile of the environment and
    asks the transport for a handshake on it; it returns [true] when both
    succeed and [false] otherwise, and it never throws: a resolver error
    (missing credentials) gives [false] with no network event, a failed
    handshake gives [false]. No message is sent. *)
Theorem verifyEmailConfig_never_throws net env :
  (exists b, result_of (verifyEmailConfig net env) = Normal b) /\
  (result_of (verifyEmailConfig net env) = Normal true <->
     exists t, createTransporter env None = Normal t /\
               verify_outcome net t = None) /\
  (forall e, createTransporter env None = Throw e ->
     verifyEmailConfig net env = ([], Normal false)) /\
  (forall t, createTransporter env None = Normal t ->
     log_of (verifyEmailConfig net env) = [Verified t] /\
     (forall e, verify_outcome net t = Some e ->
        result_of (verifyEmailConfig net env) = Normal false)) /\
  (forall t m, ~ In (SentMail t m) (log_of (verifyEmailConfig net env))).
Proof.
  destruct (createTransporter env None) as [t|e] eqn:E.
  - rewrite (verifyEmailConfig_resolved net env t E). cbn [result_of log_of fst snd].
    split; [destruct (verify_outcome net t); eexists; reflexivity |].
    split; [| split; [discriminate | split]].
    + split.
      * intros H. exists t. split; [reflexivity |].
        destruct (verify_outcome net t); [discriminate H | reflexivity].
      * intros (t' & [= <-] & ->). reflexivity.
    + intros t' [= <-]. split; [reflexivity |]. intros e ->. reflexivity.
    + intros t' m [H | []]. discriminate H.
  - rewrite (verifyEmailConfig_unresolved net env e E). cbn [result_of log_of fst snd].
    split; [eexists; reflexivity |].
    split; [| split; [reflexivity | split]].
    + split; [discriminate | intros (t & H & _); discriminate H].
    + discriminate.
    + intros t m [].
Qed.

Lemma verifyEmailConfig_never_throws_witness :
  verifyEmailConfig Samples.net_ok ∅ = ([], Normal false) /\
  result_of (verifyEmailConfig Samples.net_ok Samples.env_host)
  = Normal true /\
  result_of (verifyEmailConfig Samples.net_refused Samples.env_host)
  = Normal false.
Proof.
  split; [| split].
  - destruct (verifyEmailConfig_never_throws Samples.net_ok ∅)
      as (_ & _ & H & _).
    apply (H (Error missing_env_message)). reflexivity.
  - destruct (verifyEmailConfig_never_throws Samples.net_ok Samples.env_host)
      as (_ & H & _).
    apply H. eexists. split; reflexivity.
  - destruct (verifyEmailConfig_never_throws Samples.net_refused
                Samples.env_host) as (_ & _ & _ & H & _).
    eapply H; reflexivity.
Defined.

(** *** Errors at the boundary *)

Lemma sendEmail_throw_inv net env options x :
  result_of (sendEmail net env options) = Throw x ->
  exists msg, x = Error (send_failure_prefix +:+ msg).
Proof.
  destruct (createTransporter env (integrationConfig options)) as [t|e] eqn:E.
  - rewrite (sendEmail_resolved net env options t E). simpl.
    destruct (sendMail_outcome net t (mailOptions_of env options));
      [intros [= <-]; eexists; reflexivity | discriminate].
  - rewrite (sendEmail_unresolved net env options e E). simpl.
    intros [= <-]. eexists. reflexivity.
Qed.

(** C10. Whatever makes [sendEmail] fail, what escapes is an [Error]
    whose message starts with "Failed to send email: ": an error of the
    resolver, raised before any network event, is wrapped exactly like a
    rejection by the transport, and only the text after the prefix tells
    them apart. The route handler answers every such failure with status
    500, [success = false] and that message. *)
Theorem sendEmail_errors_uniform net env :
  (forall options x,
     result_of (sendEmail net env options) = Throw x ->
     exists msg, x = Error ("Failed to send email: " +:+ msg)) /\
  (forall options msg,
     createTransporter env (integrationConfig options) = Throw (Error msg) ->
     sendEmail net env options
     = ([], Throw (Error ("Failed to send email: " +:+ msg)))) /\
  (forall options t msg,
     createTransporter env (integrationConfig options) = Normal t ->
     sendMail_outcome net t (mailOptions_of env options) = Some (Error msg) ->
     result_of (sendEmail net env options)
     = Throw (Error ("Failed to send email: " +:+ msg))) /\
  (forall (J : Type) (to_number : J -> number) (b : Body J),
     let r := snd (post_send_email to_number net env b) in
     (exists x, result_of (sendEmail net env (options_of to_number b))
                = Throw x) ->
     status r = 500 /\ success r = false /\
     exists msg, response_message r = "Failed to send email: " +:+ msg).
Proof.
  split; [intros options x; apply sendEmail_throw_inv |].
  split; [intros options msg H;
          apply (sendEmail_unresolved net env options _ H) |].
  split.
  - intros options t msg Ht He.
    rewrite (sendEmail_resolved net env options t Ht), He. reflexivity.
  - intros J to_number b r (x & Hx). subst r. unfold post_send_email.
    destruct (sendEmail_throw_inv net env _ x Hx) as (msg & ->).
    destruct (sendEmail net env (options_of to_number b)) as [log res].
    simpl in Hx. subst res. simpl. repeat split. exists msg. reflexivity.
Qed.

Lemma sendEmail_errors_uniform_witness :
  sendEmail Samples.net_ok ∅ (Samples.options_for (Some Samples.ic_at))
  = ([], Throw (Error ("Failed to send email: " +:+
                       invalid_host_message "user@gmail.com"))) /\
  result_of (sendEmail Samples.net_refused ∅ Samples.options_2525)
  = Throw (Error ("Failed to send email: " +:+ "connect ECONNREFUSED")) /\
  status (snd (post_send_email Num Samples.net_ok ∅ Samples.body_at)) = 500 /\
  status (snd (post_send_email Num Samples.net_refused ∅ Samples.body_ok))
  = 500.
Proof.
  destruct (sendEmail_errors_uniform Samples.net_ok ∅) as (_ & Hc & _ & Hh).
  destruct (sendEmail_errors_uniform Samples.net_refused ∅)
    as (_ & _ & Hd & Hh').
  split; [| split; [| split]].
  - apply Hc. reflexivity.
  - apply (Hd Samples.options_2525 Samples.profile_2525); reflexivity.
  - apply (Hh Z Num Samples.body_at). eexists. reflexivity.
  - apply (Hh' Z Num Samples.body_ok). eexists. reflexivity.
Defined.

(** *** The route handler on the requests of the end-to-end test *)

Example post_send_email_invalid_host :
  post_send_email Num Samples.net_ok ∅ Samples.body_at
  = ([], {| status := 500; success := false;
            response_message :=
              "Failed to send email: " +:+
              invalid_host_message "foo@bar.com" |}).
Proof. reflexivity. Qed.

Example post_send_email_success :
  snd (post_send_email Num Samples.net_ok ∅ Samples.body_ok)
  = {| status := 200; success := true;
       response_message := "Email sent successfully!" |}.
Proof. reflexivity. Qed.

(** ** Further properties of the resolver *)

Lemma includes_at_false_iff (s : string) :
  includes s "@" = false <-> ~ In "@"%char (list_ascii_of_string s).
Proof.
  rewrite <- includes_at_iff. destruct (includes s "@"); split; congruence.
Qed.

Lemma createTransporter_integration_ok env ic :
  truthy (smtp_host ic) = true -> truthy (smtp_user ic) = true ->
  truthy (smtp_password ic) = true ->
  includes (the (smtp_host ic)) "@" = false ->
  exists cfg, createTransporter env (Some ic) = Normal cfg.
Proof.
  intros Hh Hu Hp Hat. unfold createTransporter.
  rewrite Hh, Hu, Hp, Hat. cbn [negb orb].
  destruct (security_of (smtp_port ic) (smtp_secure ic)).
  eexists. reflexivity.
Qed.

(** X1. A resolved profile names either a host or a service, never both
    and never neither; an integration config always gives a host. *)
Theorem resolved_host_xor_service env ic cfg :
  createTransporter env ic = Normal cfg ->
  ((~ absent_or_empty (host cfg) /\ service cfg = None) \/
   (host cfg = None /\ ~ absent_or_empty (service cfg))) /\
  (forall c, ic = Some c -> host cfg = smtp_host c /\ service cfg = None).
Proof.
  destruct ic as [ic|]; intros H.
  - apply createTransporter_integration_inv in H.
    destruct H as (Hh & _ & _ & _ & ->). cbn [host service].
    split; [left; split; [apply not_absent_or_empty, Hh | reflexivity] |].
    intros c [= <-]. auto.
  - apply createTransporter_env_inv in H. destruct H as (_ & _ & ->).
    split; [| discriminate].
    destruct (truthy (env !! "EMAIL_SERVICE")) eqn:Hs;
      [| destruct (truthy (env !! "EMAIL_HOST")) eqn:Hh];
      cbn [host service set_service set_host_port_secure env_base_config].
    + right. split; [reflexivity | apply not_absent_or_empty, Hs].
    + left. split; [apply not_absent_or_empty, Hh | reflexivity].
    + right. split; [reflexivity | not_falsy].
Qed.

Lemma resolved_host_xor_service_witness :
  exists cfg,
    createTransporter Samples.env_service_and_host None = Normal cfg /\
    host cfg = None /\ ~ absent_or_empty (service cfg).
Proof.
  eexists. split; [reflexivity |].
  match goal with
  | |- host ?c = _ /\ _ =>
      destruct (resolved_host_xor_service Samples.env_service_and_host
                  None c eq_refl) as ([(Hh & _) | H] & _)
  end.
  - exfalso. apply Hh. left. reflexivity.
  - exact H.
Defined.

(** X2. A resolved profile always carries credentials, both non-empty,
    and they are the ones given: [smtp_user]/[smtp_password] of the
    integration config, or [EMAIL_USER]/[EMAIL_PASSWORD]. *)
Theorem resolved_credentials env ic cfg :
  createTransporter env ic = Normal cfg ->
  exists u p,
    auth cfg = Some {| user := u; pass := p |} /\
    u <> EmptyString /\ p <> EmptyString /\
    match ic with
    | Some c => smtp_user c = Some u /\ smtp_password c = Some p
    | None => env !! "EMAIL_USER" = Some u /\ env !! "EMAIL_PASSWORD" = Some p
    end.
Proof.
  destruct ic as [ic|]; intros H.
  - apply createTransporter_integration_inv in H.
    destruct H as (_ & Hu & Hp & _ & ->).
    apply truthy_true_iff in Hu, Hp.
    destruct Hu as (u & Hu & Hu'), Hp as (p & Hp & Hp').
    exists u, p. rewrite Hu, Hp. auto.
  - apply createTransporter_env_inv in H. destruct H as (Hu & Hp & ->).
    apply truthy_true_iff in Hu, Hp.
    destruct Hu as (u & Hu & Hu'), Hp as (p & Hp & Hp').
    exists u, p. rewrite Hu, Hp.
    split; [| auto].
    destruct (truthy (env !! "EMAIL_SERVICE")); [reflexivity |].
    destruct (truthy (env !! "EMAIL_HOST")); reflexivity.
Qed.

Lemma resolved_credentials_witness :
  exists cfg u p,
    createTransporter Samples.env_host None = Normal cfg /\
    auth cfg = Some {| user := u; pass := p |} /\
    u <> EmptyString /\ p <> EmptyString.
Proof.
  destruct (resolved_credentials Samples.env_host None _ eq_refl)
    as (u & p & Ha & Hu & Hp & _).
  eexists. exists u, p. split; [reflexivity |]. auto.
Defined.

(** X3. An integration config resolves exactly when its host, user and
    password are non-empty strings and the host has no '@'; the port takes
    no part in validation. The profile then carries the host and the port
    unchanged. *)
Theorem integration_resolves_iff env ic :
  ((exists cfg, createTransporter env (Some ic) = Normal cfg) <->
   (exists h u p,
      smtp_host ic = Some h /\ smtp_user ic = Some u /\
      smtp_password ic = Some p /\
      h <> EmptyString /\ u <> EmptyString /\ p <> EmptyString /\
      ~ In "@"%char (list_ascii_of_string h))) /\
  (forall cfg, createTransporter env (Some ic) = Normal cfg ->
     host cfg = smtp_host ic /\ port cfg = Some (smtp_port ic)).
Proof.
  split; [split |].
  - intros (cfg & H). apply createTransporter_integration_inv in H.
    destruct H as (Hh & Hu & Hp & Hat & _).
    apply truthy_true_iff in Hh, Hu, Hp.
    destruct Hh as (h & Hh & Hh'), Hu as (u & Hu & Hu'),
             Hp as (p & Hp & Hp').
    exists h, u, p. rewrite Hh in Hat. apply includes_at_false_iff in Hat.
    auto 10.
  - intros (h & u & p & Hh & Hu & Hp & Hh' & Hu' & Hp' & Hat).
    apply createTransporter_integration_ok.
    + apply truthy_true_iff. eauto.
    + apply truthy_true_iff. eauto.
    + apply truthy_true_iff. eauto.
    + rewrite Hh. apply includes_at_false_iff, Hat.
  - intros cfg H. apply createTransporter_integration_inv in H.
    destruct H as (_ & _ & _ & _ & ->). auto.
Qed.

Lemma integration_resolves_iff_witness :
  exists cfg, createTransporter ∅ (Some Samples.ic_25) = Normal cfg.
Proof.
  apply (integration_resolves_iff ∅ Samples.ic_25).
  exists "mail.x.com", "u", "p".
  repeat split; try discriminate. vm_compute. intuition discriminate.
Defined.

Lemma sendEmail_integration_env net env env' options ic :
  integrationConfig options = Some ic ->
  sendEmail net env options = sendEmail net env' options.
Proof.
  intros Hic.
  assert (Hm : mailOptions_of env options = mailOptions_of env' options).
  { unfold mailOptions_of, fromName_of, fromEmail_of. rewrite Hic.
    reflexivity. }
  unfold sendEmail. rewrite Hm, Hic. reflexivity.
Qed.

(** X4. With an integration config the environment plays no part: the
    resolver and the whole of [sendEmail] give the same result under any
    two environments. *)
Theorem integration_ignores_environment net env env' options ic :
  integrationConfig options = Some ic ->
  createTransporter env (Some ic) = createTransporter env' (Some ic) /\
  sendEmail net env options = sendEmail net env' options.
Proof.
  intros Hic. split; [reflexivity |].
  apply (sendEmail_integration_env net env env' options ic Hic).
Qed.

Lemma integration_ignores_environment_witness :
  sendEmail Samples.net_ok ∅ Samples.options_2525
  = sendEmail Samples.net_ok Samples.env_other Samples.options_2525.
Proof.
  apply (integration_ignores_environment Samples.net_ok ∅ Samples.env_other
           Samples.options_2525 Samples.ic_2525 eq_refl).
Defined.

(** X5. A profile resolved from an integration config never allows a
    plain-text session: either it is implicit TLS ([secure = true], no
    [requireTLS]) or STARTTLS is required ([secure = false],
    [requireTLS = true]). *)
Theorem integration_always_encrypted env ic cfg :
  createTransporter env (Some ic) = Normal cfg ->
  (secure cfg = Some true /\ requireTLS cfg = None) \/
  (secure cfg = Some false /\ requireTLS cfg = Some true).
Proof.
  intros H. apply createTransporter_integration_inv in H.
  destruct H as (_ & _ & _ & _ & ->). cbn [secure requireTLS].
  unfold security_of.
  destruct (strict_eq (smtp_port ic) (Num 465)); [left; auto |].
  destruct (strict_eq (smtp_port ic) (Num 587)); [right; auto |].
  destruct (smtp_secure ic) as [[]|]; simpl; auto.
Qed.

Lemma integration_always_encrypted_witness :
  exists cfg, createTransporter ∅ (Some Samples.ic_25) = Normal cfg /\
    secure cfg = Some false /\ requireTLS cfg = Some true.
Proof.
  eexists. split; [reflexivity |].
  match goal with
  | |- secure ?c = _ /\ _ =>
      destruct (integration_always_encrypted ∅ Samples.ic_25 c eq_refl)
        as [(H & _) | H]
  end.
  - discriminate H.
  - exact H.
Defined.

(** X6. Resolution from the environment succeeds exactly when
    [EMAIL_USER] and [EMAIL_PASSWORD] are both non-empty: nothing else is
    validated, in particular neither [EMAIL_HOST] nor [EMAIL_PORT]. Such
    a profile never sets [requireTLS]. *)
Theorem environment_resolves_iff env :
  ((exists cfg, createTransporter env None = Normal cfg) <->
   (~ absent_or_empty (env !! "EMAIL_USER") /\
    ~ absent_or_empty (env !! "EMAIL_PASSWORD"))) /\
  (forall cfg, createTransporter env None = Normal cfg ->
     requireTLS cfg = None).
Proof.
  split; [split |].
  - intros (cfg & H). apply createTransporter_env_inv in H.
    destruct H as (Hu & Hp & _). rewrite !not_absent_or_empty. auto.
  - rewrite !not_absent_or_empty. intros (Hu & Hp).
    unfold createTransporter. rewrite Hu, Hp. cbn [negb orb].
    destruct (truthy (env !! "EMAIL_SERVICE")); [eexists; reflexivity |].
    destruct (truthy (env !! "EMAIL_HOST")); eexists; reflexivity.
  - intros cfg H. apply createTransporter_env_inv in H.
    destruct H as (_ & _ & ->).
    destruct (truthy (env !! "EMAIL_SERVICE")); [reflexivity |].
    destruct (truthy (env !! "EMAIL_HOST")); reflexivity.
Qed.

Lemma environment_resolves_iff_witness :
  exists cfg, createTransporter Samples.env_host_at None = Normal cfg.
Proof.
  apply (environment_resolves_iff Samples.env_host_at).
  split; not_falsy.
Defined.




(** ** Further properties of the dispatcher and the probe *)

(** X8. [sendEmail] returns normally exactly when the resolver returns a
    profile and the transport accepts the message. It reaches the network
    at most once (no retry), only to send, never to verify, and not at
    all exactly when the resolver throws. *)
Theorem sendEmail_succeeds_iff net env options :
  (result_of (sendEmail net env options) = Normal tt <->
   exists t, createTransporter env (integrationConfig options) = Normal t /\
             sendMail_outcome net t (mailOptions_of env options) = None) /\
  (length (log_of (sendEmail net env options)) <= 1)%nat /\
  (forall t, ~ In (Verified t) (log_of (sendEmail net env options))) /\
  (log_of (sendEmail net env options) = [] <->
   exists e, createTransporter env (integrationConfig options) = Throw e).
Proof.
  destruct (createTransporter env (integrationConfig options)) as [t|e] eqn:E.
  - rewrite (sendEmail_resolved net env options t E).
    cbn [result_of log_of fst snd length].
    split; [| split; [lia | split]].
    + split.
      * intros H. exists t. split; [reflexivity |].
        destruct (sendMail_outcome net t (mailOptions_of env options));
          [discriminate H | reflexivity].
      * intros (t' & [= <-] & ->). reflexivity.
    + intros t' [H | []]. discriminate H.
    + split; [discriminate | intros (e & H); discriminate H].
  - rewrite (sendEmail_unresolved net env options e E).
    cbn [result_of log_of fst snd length].
    split; [| split; [lia | split]].
    + split; [discriminate | intros (t & H & _); discriminate H].
    + intros t [].
    + split; [eauto | reflexivity].
Qed.

Lemma sendEmail_succeeds_iff_witness :
  result_of (sendEmail Samples.net_ok ∅ Samples.options_2525) = Normal tt.
Proof.
  apply (sendEmail_succeeds_iff Samples.net_ok ∅ Samples.options_2525).
  exists Samples.profile_2525. split; reflexivity.
Defined.

(** X9. In the message handed to the transport, [text], [subject] and
    [attachments] are those of the options, and the HTML body is the
    [html] of the options when it is non-empty and their [text]
    otherwise. *)
Theorem message_body_fields net env options t m :
  In (SentMail t m) (log_of (sendEmail net env options)) ->
  mail_text m = text options /\
  mail_subject m = subject options /\
  mail_attachments m = attachments options /\
  (forall h, html options = Some h -> h <> EmptyString ->
     mail_html m = Some h) /\
  (absent_or_empty (html options) -> mail_html m = text options).
Proof.
  intros H. apply sendEmail_log_inv in H. destruct H as (_ & ->).
  unfold mailOptions_of.
  cbn [mail_text mail_subject mail_attachments mail_html].
  repeat split.
  - intros h -> Hh. destruct h; [congruence | reflexivity].
  - intros [-> | ->]; reflexivity.
Qed.

Lemma message_body_fields_witness :
  mail_html (mailOptions_of ∅ Samples.options_2525) = Some "body" /\
  mail_text (mailOptions_of ∅ Samples.options_2525) = Some "body".
Proof.
  destruct (message_body_fields Samples.net_ok ∅ Samples.options_2525
              Samples.profile_2525 (mailOptions_of ∅ Samples.options_2525))
    as (Ht & _ & _ & _ & Hh).
  - left. reflexivity.
  - split; [apply Hh; left; reflexivity | exact Ht].
Defined.

(** X10. When a recipient field is left out of the outgoing message.
    [cc] (and [bcc]) is [undefined] exactly when the options give none or
    give the empty string; an empty array is not left out but sent as the
    empty string. [to] is not tested: it is [undefined] only when the
    options have none, and the message is handed to the transport all the
    same. *)
Theorem recipients_omitted_iff net env options t m :
  In (SentMail t m) (log_of (sendEmail net env options)) ->
  (mail_cc m = None <->
   cc options = None \/ cc options = Some (One EmptyString)) /\
  (mail_bcc m = None <->
   bcc options = None \/ bcc options = Some (One EmptyString)) /\
  (mail_to m = None <-> to options = None) /\
  (cc options = Some (Many []) -> mail_cc m = Some EmptyString) /\
  (bcc options = Some (Many []) -> mail_bcc m = Some EmptyString) /\
  (to options = Some (One EmptyString) -> mail_to m = Some EmptyString).
Proof.
  intros H. apply sendEmail_log_inv in H. destruct H as (_ & ->).
  unfold mailOptions_of, optional_addresses.
  cbn [mail_to mail_cc mail_bcc].
  assert (Hopt : forall v,
    (if truthy_addresses v then join_addresses v else None) = None <->
    v = None \/ v = Some (One EmptyString)).
  { intros [[[|c a]|l]|]; simpl; split; intros H;
      try discriminate; auto; destruct H; discriminate. }
  split; [apply Hopt |]. split; [apply Hopt |]. split.
  - destruct (to options) as [[a|l]|]; simpl; split; congruence.
  - split; [intros ->; reflexivity |].
    split; intros ->; reflexivity.
Qed.

Lemma recipients_omitted_iff_witness :
  log_of (sendEmail Samples.net_ok ∅ Samples.options_edge)
  = [SentMail Samples.profile_2525 (mailOptions_of ∅ Samples.options_edge)] /\
  mail_to (mailOptions_of ∅ Samples.options_edge) = None /\
  mail_cc (mailOptions_of ∅ Samples.options_edge) = Some EmptyString /\
  mail_bcc (mailOptions_of ∅ Samples.options_edge) = None.
Proof.
  split; [reflexivity |].
  destruct (recipients_omitted_iff Samples.net_ok ∅ Samples.options_edge
              Samples.profile_2525 (mailOptions_of ∅ Samples.options_edge))
    as (_ & Hbcc & Hto & Hcc & _).
  - left. reflexivity.
  - split; [apply Hto; reflexivity |].
    split; [apply Hcc; reflexivity |].
    apply Hbcc. right. reflexivity.
Defined.

(** X11. Without an integration config, the sender address of a message
    that reaches the transport is never empty and is the [from] of the
    request, or [EMAIL_FROM], or [EMAIL_USER]: since the resolver has
    required [EMAIL_USER], the built-in address is never the one used
    for want of another. The sender name is never empty either. *)
Theorem environment_sender_address net env options t m :
  integrationConfig options = None ->
  In (SentMail t m) (log_of (sendEmail net env options)) ->
  exists name e,
    mail_from m = dquote +:+ name +:+ dquote +:+ " <" +:+ e +:+ ">" /\
    name <> EmptyString /\ e <> EmptyString /\
    (from options = Some e \/
     (absent_or_empty (from options) /\ env !! "EMAIL_FROM" = Some e) \/
     (absent_or_empty (from options) /\
      absent_or_empty (env !! "EMAIL_FROM") /\
      env !! "EMAIL_USER" = Some e)).
Proof.
  intros Hnone H. apply sendEmail_log_inv in H. destruct H as (Ht & ->).
  rewrite Hnone in Ht. apply createTransporter_env_inv in Ht.
  destruct Ht as (Hu & _). apply truthy_true_iff in Hu.
  destruct Hu as (u & Hu & Hu').
  unfold mailOptions_of, from_header, fromName_of, fromEmail_of.
  cbn [mail_from]. rewrite Hnone, Hu.
  eexists. eexists. split; [reflexivity |]. split.
  - destruct (fromName options) as [[|c n]|];
      destruct (env !! "EMAIL_FROM_NAME") as [[|c' n']|]; discriminate.
  - destruct (from options) as [[|c f]|];
      destruct (env !! "EMAIL_FROM") as [[|c' f']|];
      destruct u as [|c'' u]; try congruence; unfold absent_or_empty;
      simpl; (split; [discriminate | auto 10]).
Qed.

Lemma environment_sender_address_witness :
  exists name e,
    mail_from (mailOptions_of Samples.env_creds (Samples.options_plain None))
    = dquote +:+ name +:+ dquote +:+ " <" +:+ e +:+ ">" /\
    name <> EmptyString /\ e <> EmptyString.
Proof.
  destruct (environment_sender_address Samples.net_ok Samples.env_creds
              (Samples.options_plain None)
              Samples.profile_gmail
              (mailOptions_of Samples.env_creds (Samples.options_plain None))
              eq_refl)
    as (name & e & H & Hn & He & _).
  - left. reflexivity.
  - exists name, e. auto.
Defined.

(** X12. The probe and the dispatcher agree. When [verifyEmailConfig]
    answers [true], a send without integration config reaches the
    transport on the very profile that was verified; when the probe never
    reached the network, such a send fails without reaching it either,
    with the missing-credentials message. *)
Theorem verified_profile_is_used net env options :
  integrationConfig options = None ->
  (result_of (verifyEmailConfig net env) = Normal true ->
   exists t,
     log_of (verifyEmailConfig net env) = [Verified t] /\
     log_of (sendEmail net env options)
     = [SentMail t (mailOptions_of env options)]) /\
  (log_of (verifyEmailConfig net env) = [] ->
   sendEmail net env options
   = ([], Throw (Error ("Failed to send email: " +:+
        "Email configuration is missing. Please set EMAIL_USER and EMAIL_PASSWORD in .env")))).
Proof.
  intros Hnone.
  destruct (createTransporter env None) as [t|e] eqn:E.
  - rewrite (verifyEmailConfig_resolved net env t E).
    rewrite <- Hnone in E.
    rewrite (sendEmail_resolved net env options t E).
    cbn [result_of log_of fst snd].
    split; [intros _; exists t; auto | discriminate].
  - rewrite (verifyEmailConfig_unresolved net env e E).
    cbn [result_of log_of fst snd]. split; [discriminate | intros _].
    assert (e = Error missing_env_message) as ->.
    { unfold createTransporter in E.
      destruct (negb (truthy (env !! "EMAIL_USER"))
                || negb (truthy (env !! "EMAIL_PASSWORD")));
        [congruence |].
      destruct (truthy (env !! "EMAIL_SERVICE")); [discriminate |].
      destruct (truthy (env !! "EMAIL_HOST")); discriminate. }
    rewrite <- Hnone in E.
    rewrite (sendEmail_unresolved net env options _ E). reflexivity.
Qed.

Lemma verified_profile_is_used_witness :
  exists t,
    log_of (verifyEmailConfig Samples.net_ok Samples.env_host) = [Verified t] /\
    log_of (sendEmail Samples.net_ok Samples.env_host
              (Samples.options_plain None))
    = [SentMail t (mailOptions_of Samples.env_host
                     (Samples.options_plain None))].
Proof.
  apply (verified_profile_is_used Samples.net_ok Samples.env_host
           (Samples.options_plain None) eq_refl).
  reflexivity.
Defined.

(** X13. Every resolved profile has the transport's logging and debug
    output switched on, and never carries TLS options: certificate
    checking is left at the transport's default on both paths. *)
Theorem resolved_profile_flags env ic cfg :
  createTransporter env ic = Normal cfg ->
  logger cfg = Some true /\ debug cfg = Some true /\ tls cfg = None.
Proof.
  destruct ic as [ic|]; intros H.
  - apply createTransporter_integration_inv in H.
    destruct H as (_ & _ & _ & _ & ->). auto.
  - apply createTransporter_env_inv in H. destruct H as (_ & _ & ->).
    destruct (truthy (env !! "EMAIL_SERVICE")); [auto |].
    destruct (truthy (env !! "EMAIL_HOST")); auto.
Qed.

Lemma resolved_profile_flags_witness :
  logger Samples.profile_gmail = Some true /\
  debug Samples.profile_gmail = Some true /\
  tls Samples.profile_gmail = None.
Proof.
  apply (resolved_profile_flags Samples.env_creds None Samples.profile_gmail).
  reflexivity.
Defined.

(** ** Further properties of the route handler *)

Lemma post_send_email_log {J} (to_number : J -> number) net env (b : Body J) :
  fst (post_send_email to_number net env b)
  = log_of (sendEmail net env (options_of to_number b)).
Proof.
  unfold post_send_email, log_of.
  destruct (sendEmail net env (options_of to_number b)) as [log [u|e]];
    reflexivity.
Qed.

Lemma post_send_email_sent_inv {J} (to_number : J -> number) net env
    (b : Body J) t m :
  In (SentMail t m) (fst (post_send_email to_number net env b)) ->
  createTransporter env (Some (integrationConfig_of to_number b)) = Normal t /\
  m = mailOptions_of env (options_of to_number b).
Proof.
  rewrite post_send_email_log. intros H.
  apply sendEmail_log_inv in H. exact H.
Qed.





(** X15. The route never falls back on the environment: its answer and
    its network events are the same under any two environments. *)
Theorem post_send_email_ignores_environment {J} (to_number : J -> number)
    net env env' (b : Body J) :
  post_send_email to_number net env b = post_send_email to_number net env' b.
Proof.
  unfold post_send_email.
  rewrite (sendEmail_integration_env net env env' (options_of to_number b)
             (integrationConfig_of to_number b) eq_refl).
  reflexivity.
Qed.

(** X16. The message the route sends: subject and plain text are those of
    the body, the HTML part is always the message between [<p>] and
    [</p>] (an absent message is printed as [undefined]) and never the
    plain-text fallback, and there is no [cc], [bcc] or attachment. *)
Theorem post_send_email_message {J} (to_number : J -> number) net env
    (b : Body J) t m :
  In (SentMail t m) (fst (post_send_email to_number net env b)) ->
  mail_subject m = body_subject b /\
  mail_text m = message b /\
  (forall s, message b = Some s ->
     mail_html m = Some ("<p>" +:+ s +:+ "</p>")) /\
  (message b = None -> mail_html m = Some "<p>undefined</p>") /\
  (forall a, body_to b = Some (One a) -> mail_to m = Some a) /\
  (forall l, body_to b = Some (Many l) ->
     mail_to m = Some (String.concat ", " l)) /\
  mail_cc m = None /\ mail_bcc m = None /\ mail_attachments m = None.
Proof.
  intros H. apply post_send_email_sent_inv in H. destruct H as (_ & ->).
  unfold mailOptions_of, options_of.
  cbn [mail_subject mail_text mail_html mail_to mail_cc mail_bcc
       mail_attachments subject text html to cc bcc attachments].
  repeat split.
  - intros s ->. reflexivity.
  - intros ->. reflexivity.
  - intros a ->. reflexivity.
  - intros l ->. simpl. rewrite join_concat. reflexivity.
Qed.

Lemma post_send_email_message_witness :
  exists t m,
    fst (post_send_email Num Samples.net_ok ∅ Samples.body_465)
    = [SentMail t m] /\
    mail_html m = Some "<p>undefined</p>" /\
    mail_to m = Some "a@x.com, b@x.com" /\ mail_cc m = None.
Proof.
  eexists. eexists. split; [reflexivity |].
  match goal with
  | |- mail_html ?m = _ /\ _ =>
      destruct (post_send_email_message Num Samples.net_ok ∅
                  Samples.body_465
                  Samples.profile_465 m)
        as (_ & _ & _ & Hh & _ & Hto & Hcc & _)
  end.
  - left. reflexivity.
  - split; [apply Hh; reflexivity |].
    split; [apply (Hto ["a@x.com"; "b@x.com"]); reflexivity | exact Hcc].
Defined.

(** X17. The route builds its integration config without [smtp_secure],
    so the security of the profile it sends on depends on the port alone:
    port 465 gives implicit TLS, every other port gives [secure = false]
    with STARTTLS required. Host and port are those of the body. *)
Theorem post_send_email_security {J} (to_number : J -> number) net env
    (b : Body J) t m :
  In (SentMail t m) (fst (post_send_email to_number net env b)) ->
  host t = smtpHost b /\
  port t = Some (to_number (smtpPort b)) /\
  (to_number (smtpPort b) = Num 465 ->
     secure t = Some true /\ requireTLS t = None) /\
  (to_number (smtpPort b) <> Num 465 ->
     secure t = Some false /\ requireTLS t = Some true).
Proof.
  intros H. apply post_send_email_sent_inv in H. destruct H as (H & _).
  apply createTransporter_integration_inv in H.
  destruct H as (_ & _ & _ & _ & ->).
  cbn [host port secure requireTLS integrationConfig_of smtp_host smtp_port
       smtp_secure].
  unfold security_of. repeat split.
  - rewrite H. reflexivity.
  - rewrite H. reflexivity.
  - apply strict_eq_false_iff in H. rewrite H.
    destruct (strict_eq (to_number (smtpPort b)) (Num 587)); reflexivity.
  - apply strict_eq_false_iff in H. rewrite H.
    destruct (strict_eq (to_number (smtpPort b)) (Num 587)); reflexivity.
Qed.

Lemma post_send_email_security_witness :
  exists t m,
    fst (post_send_email Num Samples.net_ok ∅ Samples.body_465)
    = [SentMail t m] /\
    secure t = Some true /\ requireTLS t = None.
Proof.
  eexists. eexists. split; [reflexivity |].
  match goal with
  | |- secure ?t = _ /\ _ =>
      destruct (post_send_email_security Num Samples.net_ok ∅
                  Samples.body_465 t
                  (mailOptions_of ∅ (options_of Num Samples.body_465)))
        as (_ & _ & H & _)
  end.
  - left. reflexivity.
  - apply H. reflexivity.
Defined.

(** X18. The sender header of a message sent by the route: the name is
    the [fromName] of the body when it is non-empty and "aNquest+"
    otherwise; the address is the [fromEmail] of the body, and an absent
    one is printed as [undefined]. *)
Theorem post_send_email_sender {J} (to_number : J -> number) net env
    (b : Body J) t m :
  In (SentMail t m) (fst (post_send_email to_number net env b)) ->
  exists name,
    mail_from m
    = dquote +:+ name +:+ dquote +:+ " <" +:+ tpl (body_fromEmail b) +:+ ">" /\
    (forall n, body_fromName b = Some n -> n <> EmptyString -> name = n) /\
    (absent_or_empty (body_fromName b) -> name = "aNquest+") /\
    (body_fromEmail b = None ->
       mail_from m = dquote +:+ name +:+ dquote +:+ " <undefined>").
Proof.
  intros H. apply post_send_email_sent_inv in H. destruct H as (_ & ->).
  exists (or_str (body_fromName b) "aNquest+").
  unfold mailOptions_of, from_header, fromName_of, fromEmail_of, options_of.
  cbn [mail_from integrationConfig fromName from integrationConfig_of
       from_name from_email].
  split; [| split; [| split]].
  - destruct (body_fromName b) as [[|c n]|];
      destruct (body_fromEmail b) as [[|c' e]|]; reflexivity.
  - intros n -> Hn. destruct n; [congruence | reflexivity].
  - intros [-> | ->]; reflexivity.
  - intros ->. destruct (body_fromName b) as [[|c n]|]; reflexivity.
Qed.

Lemma post_send_email_sender_witness :
  exists t m,
    fst (post_send_email Num Samples.net_ok ∅ Samples.body_465)
    = [SentMail t m] /\
    mail_from m = dquote +:+ "Ann" +:+ dquote +:+ " <undefined>".
Proof.
  eexists. eexists. split; [reflexivity |].
  match goal with
  | |- mail_from ?m = _ =>
      destruct (post_send_email_sender Num Samples.net_ok ∅
                  Samples.body_465
                  Samples.profile_465 m)
        as (name & _ & Hn & _ & Hu)
  end.
  - left. reflexivity.
  - rewrite (Hu eq_refl), (Hn "Ann" eq_refl); [reflexivity | discriminate].
Defined.




